(** * Carbon analytics engine: a shallow embedding of [carbon_analytics.py]

    The module [CarbonFootprintAnalytics] reads three tables of the emission
    store through SQL queries and post-processes the result frames with
    pandas.  The embedding follows that split:

    - the store is a record of row lists ([database]);
    - every SQL clause used by the queries ([WHERE], [GROUP BY] with [SUM],
      [AVG] and [COUNT], [LEFT JOIN], [JOIN], [ORDER BY], [LIMIT]) is a list
      function;
    - the pandas steps (column means, positional slicing, [groupby],
      [nlargest], [round]) are list functions over the fetched rows.

    Numbers.  The store keeps [REAL] columns and pandas computes in binary64.
    Stored values and finite results are modelled as exact rationals ([Qc]);
    the rounding error of binary64 is not modelled.  What is kept of IEEE-754
    is what the control flow of the module depends on: the mean of an empty
    column is NaN, a division by zero gives an infinity or NaN, and every
    ordered comparison with NaN is false.  Zero is unsigned.

    Dates.  The store keeps ISO-8601 text ([YYYY-MM-DD]) and SQLite compares
    it as text; a date is modelled by its day number (days since 1970-01-01),
    on which the text order is the numeric order. *)

From Stdlib Require Import ZArith QArith Qcanon Qround Ascii String Bool List.
From Stdlib Require Import Lia Lqa.
From Stdlib Require Import Sorting.Sorted Sorting.Permutation.
Import ListNotations.

Local Open Scope Z_scope.

(* ================================================================== *)
(** * Numbers *)

Module Num.

(** A float as the analytics code sees it. *)
Inductive num : Type :=
| Fin (q : Qc)
| PInf
| NInf
| NaN.

Definition Qc_of_Z (z : Z) : Qc := Q2Qc (inject_Z z).
Definition Qc_of_nat (n : nat) : Qc := Qc_of_Z (Z.of_nat n).
(** [dec n d] is the rational n/d, used for decimal literals. *)
Definition dec (n : Z) (d : positive) : Qc := Q2Qc (n # d).

Definition Qcltb (x y : Qc) : bool :=
  match (x ?= y)%Qc with Lt => true | _ => false end.
Definition Qcleb (x y : Qc) : bool :=
  match (x ?= y)%Qc with Gt => false | _ => true end.
Definition Qceqb (x y : Qc) : bool :=
  match (x ?= y)%Qc with Eq => true | _ => false end.

Definition num_neg (a : num) : num :=
  match a with
  | Fin x => Fin (- x)%Qc
  | PInf => NInf
  | NInf => PInf
  | NaN => NaN
  end.

Definition num_add (a b : num) : num :=
  match a, b with
  | NaN, _ | _, NaN => NaN
  | Fin x, Fin y => Fin (x + y)%Qc
  | PInf, NInf | NInf, PInf => NaN
  | PInf, _ | _, PInf => PInf
  | NInf, _ | _, NInf => NInf
  end.

(** [a - b] *)
Definition num_sub (a b : num) : num := num_add a (num_neg b).

(** The infinity with the sign of [x], NaN for zero. *)
Definition inf_of_sign (x : Qc) : num :=
  match (x ?= 0)%Qc with
  | Gt => PInf
  | Lt => NInf
  | Eq => NaN
  end.

(** [a * b] *)
Definition num_mul (a b : num) : num :=
  match a, b with
  | NaN, _ | _, NaN => NaN
  | Fin x, Fin y => Fin (x * y)%Qc
  | PInf, Fin y | Fin y, PInf => inf_of_sign y
  | NInf, Fin y | Fin y, NInf => inf_of_sign (- y)%Qc
  | PInf, PInf | NInf, NInf => PInf
  | PInf, NInf | NInf, PInf => NInf
  end.

(** [a / b]: a finite non-zero value over zero is an infinity, zero over
    zero is NaN, nothing is raised. *)
Definition num_div (a b : num) : num :=
  match a, b with
  | NaN, _ | _, NaN => NaN
  | Fin x, Fin y => if Qceqb y 0 then inf_of_sign x else Fin (x / y)%Qc
  | Fin _, PInf | Fin _, NInf => Fin 0%Qc
  | PInf, Fin y => if Qcltb y 0 then NInf else PInf
  | NInf, Fin y => if Qcltb y 0 then PInf else NInf
  | _, _ => NaN
  end.

(** [a > b]; false as soon as one side is NaN. *)
Definition num_gtb (a b : num) : bool :=
  match a, b with
  | NaN, _ | _, NaN => false
  | Fin x, Fin y => Qcltb y x
  | PInf, PInf => false
  | PInf, _ => true
  | _, PInf => false
  | NInf, _ => false
  | Fin _, NInf => true
  end.

(** Nearest integer, ties to the even one. *)
Definition round_half_even (q : Qc) : Z :=
  let f := Qfloor q in
  match (((q - Qc_of_Z f)%Qc : Qc) ?= dec 1 2)%Qc with
  | Lt => f
  | Gt => f + 1
  | Eq => if Z.even f then f else f + 1
  end.

(** [round(x, 2)] on a finite value. *)
Definition Qc_round2 (q : Qc) : Qc :=
  (Qc_of_Z (round_half_even (q * Qc_of_Z 100)%Qc) / Qc_of_Z 100)%Qc.

(** [round(x, 2)]; infinities and NaN are returned unchanged. *)
Definition round2 (a : num) : num :=
  match a with
  | Fin q => Fin (Qc_round2 q)
  | other => other
  end.

(** [SUM(...)] over a group / the sum of a column. *)
Definition sum (l : list Qc) : Qc := fold_right Qcplus 0%Qc l.

(** [AVG(...)] over a group, which is never empty. *)
Definition avg (l : list Qc) : Qc := (sum l / Qc_of_nat (length l))%Qc.

(** [Series.mean()]: NaN on an empty column. *)
Definition mean (l : list Qc) : num :=
  match l with
  | [] => NaN
  | _ :: _ => Fin (avg l)
  end.

(** [Series.mean()] on a nullable column: nulls are skipped. *)
Fixpoint dropna (l : list (option Qc)) : list Qc :=
  match l with
  | [] => []
  | Some x :: l' => x :: dropna l'
  | None :: l' => dropna l'
  end.

Definition mean_skipna (l : list (option Qc)) : num := mean (dropna l).

End Num.
Export Num.

(* ================================================================== *)
(** * Calendar *)

Module Calendar.

(** Day number of a date: days since 1970-01-01. *)
Definition date : Type := Z.

(** [date(d, '-n days')] *)
Definition date_sub_days (d : date) (n : nat) : date := d - Z.of_nat n.

(** Day of the year counted from 1 March, within the 400-year era. *)
Definition day_of_march_year (d : date) : Z :=
  let doe := (d + 719468) mod 146097 in
  let yoe := (doe - doe / 1460 + doe / 36524 - doe / 146096) / 365 in
  doe - (365 * yoe + yoe / 4 - yoe / 100).

(** [dt.month], 1 to 12. *)
Definition month_of (d : date) : Z :=
  let mp := (5 * day_of_march_year d + 2) / 153 in
  if mp <? 10 then mp + 3 else mp - 9.

(** [dt.dayofweek], Monday = 0; 1970-01-01 was a Thursday. *)
Definition day_of_week (d : date) : Z := (d + 3) mod 7.

End Calendar.
Export Calendar.

(* ================================================================== *)
(** * The emission store *)

Module Store.

(** A row of [home_energy]; the usage columns are nullable.  A row whose
    [user_id] is NULL is matched by no query of the module, so user
    identifiers are plain integers here. *)
Record home_energy_row : Type := {
  he_user_id : Z;
  he_electricity_usage : option Qc;
  he_gas_usage : option Qc;
  he_water_usage : option Qc;
  he_heating_usage : option Qc;
  he_carbon_emissions : Qc;
  he_consumption_date : date
}.

(** A row of [transportation]; mode, distance and fuel type are never
    read by the analytics queries. *)
Record transportation_row : Type := {
  tr_user_id : Z;
  tr_carbon_emissions : Qc;
  tr_activity_date : date
}.

(** A row of [daily_activities]. *)
Record daily_activity_row : Type := {
  da_user_id : Z;
  da_category_id : Z;
  da_quantity : Qc;
  da_carbon_emissions : Qc
}.

(** A row of [activity_categories]. *)
Record activity_category_row : Type := {
  ac_category_id : Z;
  ac_category_name : string
}.

Record database : Type := {
  home_energy : list home_energy_row;
  transportation : list transportation_row;
  daily_activities : list daily_activity_row;
  activity_categories : list activity_category_row
}.

End Store.
Export Store.

(* ================================================================== *)
(** * SQL clauses and frame operations as list functions *)

Module Sql.

Section Generic.
Context {K V : Type}.
Variable eqb : K -> K -> bool.

(** The distinct keys of a column, in the order they are first met. *)
Fixpoint distinct_from (seen : list K) (l : list K) : list K :=
  match l with
  | [] => []
  | k :: l' =>
      if existsb (eqb k) seen then distinct_from seen l'
      else k :: distinct_from (k :: seen) l'
  end.

Definition distinct (l : list K) : list K := distinct_from [] l.

(** [GROUP BY key]: one group per distinct key, holding the rows with
    that key in table order.  SQL leaves the order of the groups open;
    they are listed here by first occurrence, and every query either
    orders them afterwards or looks them up by key. *)
Definition group_by (key : V -> K) (rows : list V) : list (K * list V) :=
  map (fun k => (k, filter (fun r => eqb (key r) k) rows))
      (distinct (map key rows)).
End Generic.

Section Order.
Context {A : Type}.
Variable leb : A -> A -> bool.

Fixpoint insert_sorted (x : A) (l : list A) : list A :=
  match l with
  | [] => [x]
  | y :: l' => if leb x y then x :: y :: l' else y :: insert_sorted x l'
  end.

(** [ORDER BY]: a stable sort, rows with equal keys keep their order. *)
Definition order_by (l : list A) : list A :=
  fold_right insert_sorted [] l.
End Order.

(** [COALESCE(x, 0)] *)
Definition coalesce0 (x : option Qc) : Qc :=
  match x with
  | Some v => v
  | None => 0%Qc
  end.

End Sql.
Export Sql.

(* ================================================================== *)
(** * [CarbonFootprintAnalytics] *)

Module Analytics.

(** ** Result rows *)

(** A row of the timeline frame. *)
Record timeline_row : Type := {
  tl_consumption_date : date;
  tl_daily_carbon : Qc
}.

(** A row of the sub-query [t]: transport emissions per day and user. *)
Record transport_day : Type := {
  td_activity_date : date;
  td_user_id : Z;
  td_transport_emissions : Qc
}.

(** A row of the pattern frame; [week_of_year] is read by no operation of
    the module and is left out. *)
Record pattern_row : Type := {
  consumption_date : date;
  electricity_usage : option Qc;
  gas_usage : option Qc;
  water_usage : option Qc;
  heating_usage : option Qc;
  home_emissions : Qc;
  transport_emissions : Qc;
  total_emissions : Qc;
  day_of_week : Z;
  month : Z
}.

(** A row of the activity ranking. *)
Record activity_summary : Type := {
  category_name : string;
  avg_quantity : Qc;
  avg_carbon : Qc;
  total_carbon : Qc;
  frequency : nat
}.

(** The two shapes of suggestion dictionaries. *)
Inductive suggestion : Type :=
| Threshold (category : string) (current_avg : num)
            (advice : string) (potential_reduction : string)
| Seasonal (category : string) (peak_months : list Z)
           (advice : string) (potential_reduction : string).



(** The dictionary returned by [calculate_carbon_trends]. *)
Record trend_report : Type := {
  recent_avg : num;
  previous_avg : num;
  change_percent : num;
  trend : string
}.

(** ** Shared query parts *)

(** [ORDER BY key] (ascending) on an integer key: a date or a month. *)
Definition asc_by {A : Type} (key : A -> Z) (a b : A) : bool :=
  key a <=? key b.

(** Equality of the grouping key (activity_date, user_id). *)
Definition day_user_eqb (a b : date * Z) : bool :=
  (fst a =? fst b) && (snd a =? snd b).

(** [SELECT activity_date, user_id, SUM(carbon_emissions) FROM
    transportation GROUP BY activity_date, user_id] *)
Definition transport_per_day (db : database) : list transport_day :=
  map (fun g =>
         {| td_activity_date := fst (fst g);
            td_user_id := snd (fst g);
            td_transport_emissions := sum (map tr_carbon_emissions (snd g)) |})
      (group_by day_user_eqb
                (fun r => (tr_activity_date r, tr_user_id r))
                (transportation db)).

(** [home_energy h LEFT JOIN t ON h.consumption_date = t.activity_date AND
    h.user_id = t.user_id]: every home-energy row is kept; it is paired
    with each matching row of [t], or with NULL when there is none. *)
Definition left_join_transport (db : database) (hs : list home_energy_row)
  : list (home_energy_row * option Qc) :=
  flat_map
    (fun h =>
       match filter (fun t => (he_consumption_date h =? td_activity_date t)
                              && (he_user_id h =? td_user_id t))
                    (transport_per_day db) with
       | [] => [(h, None)]
       | ms => map (fun t => (h, Some (td_transport_emissions t))) ms
       end)
    hs.

(** The transportation rows of one user on one day (used to state what
    the join computes). *)
Definition same_day_transport (db : database) (user_id : Z) (d : date)
  : list transportation_row :=
  filter (fun t => (tr_activity_date t =? d) && (tr_user_id t =? user_id))
         (transportation db).

(** [SUM(carbon_emissions)] over these rows, NULL when there is none. *)
Definition day_transport (db : database) (user_id : Z) (d : date)
  : option Qc :=
  match same_day_transport db user_id d with
  | [] => None
  | ts => Some (sum (map tr_carbon_emissions ts))
  end.

(** ** [get_user_carbon_timeline] *)

(** The rows kept by the [WHERE] clause: the user's, dated on or after
    [date('now', '-days days')]. *)
Definition timeline_selected
    (db : database) (today : date) (user_id : Z) (days : nat)
  : list home_energy_row :=
  filter (fun h => (he_user_id h =? user_id)
                   && (date_sub_days today days <=? he_consumption_date h))
         (home_energy db).

Definition get_user_carbon_timeline
    (db : database) (today : date) (user_id : Z) (days : nat)
  : list timeline_row :=
  order_by (asc_by tl_consumption_date)
    (map (fun g => {| tl_consumption_date := fst g;
                      tl_daily_carbon := sum (map he_carbon_emissions (snd g)) |})
         (group_by Z.eqb he_consumption_date
                   (timeline_selected db today user_id days))).

(** ** [analyze_carbon_patterns] *)

(** The frame row built from a fetched row: the [COALESCE], the
    [total_emissions] column and the calendar features. *)
Definition pattern_of_fetched (p : home_energy_row * option Qc)
  : pattern_row :=
  let h := fst p in
  let transport := coalesce0 (snd p) in
  {| consumption_date := he_consumption_date h;
     electricity_usage := he_electricity_usage h;
     gas_usage := he_gas_usage h;
     water_usage := he_water_usage h;
     heating_usage := he_heating_usage h;
     home_emissions := he_carbon_emissions h;
     transport_emissions := transport;
     total_emissions := (he_carbon_emissions h + transport)%Qc;
     day_of_week := Calendar.day_of_week (he_consumption_date h);
     month := month_of (he_consumption_date h) |}.

Definition analyze_carbon_patterns (db : database) (user_id : Z)
  : list pattern_row :=
  let fetched :=
    order_by (asc_by (fun p => he_consumption_date (fst p)))
      (left_join_transport db
         (filter (fun h => he_user_id h =? user_id) (home_energy db))) in
  map pattern_of_fetched fetched.

(** ** [get_eco_heavy_activities] *)

(** [daily_activities da JOIN activity_categories ac ON da.category_id =
    ac.category_id WHERE da.user_id = ?] *)
Definition user_activities (db : database) (user_id : Z)
  : list (string * daily_activity_row) :=
  flat_map
    (fun da =>
       map (fun ac => (ac_category_name ac, da))
           (filter (fun ac => da_category_id da =? ac_category_id ac)
                   (activity_categories db)))
    (filter (fun da => da_user_id da =? user_id) (daily_activities db)).

Definition summarize (g : string * list (string * daily_activity_row))
  : activity_summary :=
  {| category_name := fst g;
     avg_quantity := avg (map (fun r => da_quantity (snd r)) (snd g));
     avg_carbon := avg (map (fun r => da_carbon_emissions (snd r)) (snd g));
     total_carbon := sum (map (fun r => da_carbon_emissions (snd r)) (snd g));
     frequency := length (snd g) |}.

(** [ORDER BY total_carbon DESC] *)
Definition by_total_desc (a b : activity_summary) : bool :=
  Qcleb (total_carbon b) (total_carbon a).

(** The grouped, aggregated rows before [ORDER BY] and [LIMIT]. *)
Definition category_summaries (db : database) (user_id : Z)
  : list activity_summary :=
  map summarize (group_by String.eqb fst (user_activities db user_id)).

Definition get_eco_heavy_activities
    (db : database) (user_id : Z) (top_n : nat) : list activity_summary :=
  firstn top_n (order_by by_total_desc (category_summaries db user_id)).

(** ** [generate_optimization_suggestions] *)

(** [groupby('month')['total_emissions'].mean()]: one entry per month
    present, by ascending month. *)
Definition monthly_mean (patterns : list pattern_row) : list (Z * Qc) :=
  order_by (asc_by fst)
    (map (fun g => (fst g, avg (map total_emissions (snd g))))
         (group_by Z.eqb month patterns)).

(** [nlargest(n).index.tolist()]: the keys of the [n] largest values,
    largest first, equal values in index order. *)
Definition nlargest_index (n : nat) (s : list (Z * Qc)) : list Z :=
  map fst (firstn n (order_by (fun a b => Qcleb (snd b) (snd a)) s)).

Definition electricity_suggestion (avg_electricity : num) : suggestion :=
  Threshold "Electricity"%string (round2 avg_electricity)
    "Consider switching to LED bulbs and unplugging devices when not in use"%string
    "15-20%"%string.

Definition transport_suggestion (avg_transport : num) : suggestion :=
  Threshold "Transportation"%string (round2 avg_transport)
    "Try using public transport or cycling for short trips"%string
    "30-40%"%string.

Definition seasonal_suggestion (peak_months : list Z) : suggestion :=
  Seasonal "Seasonal Optimization"%string peak_months
    "Focus on energy efficiency during high-consumption months"%string
    "10-15%"%string.

(** What a call yields: a value, or an exception. *)
Inductive outcome (A : Type) : Type :=
| Returned (a : A)
| Raised.
Arguments Returned {A} a.
Arguments Raised {A}.

(** [monthly_avg.nlargest(3).index.tolist()] on the pattern frame.

    A query without result rows gives pandas a frame whose columns are
    untyped (object), and so is the monthly mean computed from it.  The
    source does not fix what pandas does there: versions that refuse
    [nlargest] on an object column raise, others return the empty
    selection.  [strict_dtypes] tells which; with at least one row the
    columns are floats and the flag plays no role. *)
Definition peak_months_of (strict_dtypes : bool) (patterns_df : list pattern_row)
  : outcome (list Z) :=
  match patterns_df with
  | [] => if strict_dtypes then Raised else Returned []
  | _ :: _ => Returned (nlargest_index 3 (monthly_mean patterns_df))
  end.

Definition generate_optimization_suggestions
    (strict_dtypes : bool) (db : database) (user_id : Z)
  : outcome (list suggestion) :=
  let patterns_df := analyze_carbon_patterns db user_id in
  let eco_heavy_df := get_eco_heavy_activities db user_id 5 in
  let suggestions := [] in
  let avg_electricity := mean_skipna (map electricity_usage patterns_df) in
  let suggestions :=
    if num_gtb avg_electricity (Fin (Qc_of_Z 30))
    then suggestions ++ [electricity_suggestion avg_electricity]
    else suggestions in
  let avg_transport := mean (map transport_emissions patterns_df) in
  let suggestions :=
    if num_gtb avg_transport (Fin (Qc_of_Z 2))
    then suggestions ++ [transport_suggestion avg_transport]
    else suggestions in
  match peak_months_of strict_dtypes patterns_df with
  | Raised => Raised
  | Returned peak_months =>
      Returned (suggestions ++ [seasonal_suggestion peak_months])
  end.

(** ** [calculate_carbon_trends] *)

(** A row of the fetched trend frame. *)
Record trend_row : Type := {
  tf_consumption_date : date;
  total_daily_carbon : Qc
}.

(** The home-energy rows kept by the [WHERE] clause: the user's, dated on
    or after [date('now', '-(period_days * 2) days')]. *)
Definition trend_selected
    (db : database) (today : date) (user_id : Z) (period_days : nat)
  : list home_energy_row :=
  filter (fun h => (he_user_id h =? user_id)
                   && (date_sub_days today (period_days * 2)
                       <=? he_consumption_date h))
         (home_energy db).

(** The frame fetched by the query: the selected rows, each with the
    transport emissions of its day added, by ascending date. *)
Definition trend_frame
    (db : database) (today : date) (user_id : Z) (period_days : nat)
  : list trend_row :=
  map (fun p =>
         {| tf_consumption_date := he_consumption_date (fst p);
            total_daily_carbon :=
              (he_carbon_emissions (fst p) + coalesce0 (snd p))%Qc |})
    (order_by (asc_by (fun p => he_consumption_date (fst p)))
       (left_join_transport db (trend_selected db today user_id period_days))).

(** [df.iloc[:midpoint]] and [df.iloc[midpoint:]] with
    [midpoint = len(df) // 2] *)
Definition previous_half {A : Type} (df : list A) : list A :=
  firstn (Nat.div (length df) 2) df.
Definition recent_half {A : Type} (df : list A) : list A :=
  skipn (Nat.div (length df) 2) df.

(** The trend dictionary built from the two means. *)
Definition trend_of_means (recent_period previous_period : num)
  : trend_report :=
  let change :=
    num_mul (num_div (num_sub recent_period previous_period)
                     previous_period)
            (Fin (Qc_of_Z 100)) in
  {| recent_avg := round2 recent_period;
     previous_avg := round2 previous_period;
     change_percent := round2 change;
     trend := if num_gtb change (Fin 0%Qc)
              then "increasing"%string else "decreasing"%string |}.

(** The part of the method after the fetch. *)
Definition trend_of_frame (df : list trend_row) (period_days : nat)
  : option trend_report :=
  if Nat.ltb (length df) period_days then None
  else
    let recent_period :=
      mean (map total_daily_carbon (recent_half df)) in
    let previous_period :=
      mean (map total_daily_carbon (previous_half df)) in
    Some (trend_of_means recent_period previous_period).

Definition calculate_carbon_trends
    (db : database) (today : date) (user_id : Z) (period_days : nat)
  : option trend_report :=
  trend_of_frame (trend_frame db today user_id period_days) period_days.

End Analytics.
Export Analytics.

(* ================================================================== *)
(** * Sample stores *)

Module Samples.

Definition home (u : Z) (d : date) (electricity : option Qc) (carbon : Qc)
  : home_energy_row :=
  {| he_user_id := u;
     he_electricity_usage := electricity;
     he_gas_usage := None;
     he_water_usage := None;
     he_heating_usage := None;
     he_carbon_emissions := carbon;
     he_consumption_date := d |}.

Definition trip (u : Z) (d : date) (carbon : Qc) : transportation_row :=
  {| tr_user_id := u; tr_carbon_emissions := carbon; tr_activity_date := d |}.

Definition activity (u cat : Z) (quantity carbon : Qc)
  : daily_activity_row :=
  {| da_user_id := u; da_category_id := cat;
     da_quantity := quantity; da_carbon_emissions := carbon |}.

Definition category (id : Z) (name : string) : activity_category_row :=
  {| ac_category_id := id; ac_category_name := name |}.

Definition store_of_home (hs : list home_energy_row) : database :=
  {| home_energy := hs; transportation := [];
     daily_activities := []; activity_categories := [] |}.



(** User 1 logged 0, 0, 5, 5 on four consecutive days. *)
Definition zero_baseline_store : database :=
  store_of_home
    [home 1 1 None 0%Qc; home 1 2 None 0%Qc;
     home 1 3 None (Qc_of_Z 5); home 1 4 None (Qc_of_Z 5)].

(** User 1 logged on ten consecutive days. *)
Definition ten_day_store : database :=
  store_of_home
    (map (fun d => home 1 d None (Qc_of_Z 3)) [1; 2; 3; 4; 5; 6; 7; 8; 9; 10]).

(** Day 5 has a home-energy row and two trips (1.5 and 2.5); day 6 has a
    home-energy row only; day 7 has a trip only; and another user also
    travels on day 5. *)
Definition joined_store : database :=
  {| home_energy :=
       [home 1 6 (Some (Qc_of_Z 20)) (Qc_of_Z 8);
        home 1 5 (Some (Qc_of_Z 50)) (Qc_of_Z 7)];
     transportation :=
       [trip 1 5 (dec 3 2); trip 2 5 (Qc_of_Z 9);
        trip 1 5 (dec 5 2); trip 1 7 (Qc_of_Z 1)];
     daily_activities := [];
     activity_categories := [] |}.

(** Three categories whose totals for user 1 are 10, 50 and 30. *)
Definition ranked_store : database :=
  {| home_energy := [];
     transportation := [];
     daily_activities :=
       [activity 1 1 (Qc_of_Z 2) (Qc_of_Z 10);
        activity 1 2 (Qc_of_Z 3) (Qc_of_Z 20);
        activity 1 3 (Qc_of_Z 1) (Qc_of_Z 30);
        activity 1 2 (Qc_of_Z 5) (Qc_of_Z 30);
        activity 2 1 (Qc_of_Z 7) (Qc_of_Z 99)];
     activity_categories :=
       [category 1 "Electricity"%string; category 2 "Food Meat"%string;
        category 3 "Car Petrol"%string] |}.

End Samples.

(* ================================================================== *)
(** * Vocabulary for further properties of the analytics module *)

Module Views.

(** The two columns the trend query selects, read off a pattern row. *)
Definition trend_row_of_pattern (r : pattern_row) : trend_row :=
  {| tf_consumption_date := consumption_date r;
     total_daily_carbon := total_emissions r |}.


(** The rows of a user in each table the analytics read by user. *)
Definition home_rows_of (db : database) (u : Z) : list home_energy_row :=
  filter (fun h => he_user_id h =? u) (home_energy db).
Definition trips_of (db : database) (u : Z) : list transportation_row :=
  filter (fun t => tr_user_id t =? u) (transportation db).
Definition activities_of (db : database) (u : Z) : list daily_activity_row :=
  filter (fun a => da_user_id a =? u) (daily_activities db).

(** [joined_store] with more rows of other users in every table. *)
Definition crowded_store : database :=
  {| home_energy :=
       Samples.home 2 5 (Some (Qc_of_Z 99)) (Qc_of_Z 40)
       :: home_energy Samples.joined_store
       ++ [Samples.home 3 6 None (Qc_of_Z 1)];
     transportation :=
       Samples.trip 3 5 (Qc_of_Z 70)
       :: transportation Samples.joined_store
       ++ [Samples.trip 2 6 (Qc_of_Z 3)];
     daily_activities := [Samples.activity 2 1 (Qc_of_Z 1) (Qc_of_Z 1)];
     activity_categories := [] |}.

End Views.
Export Views.

(* ================================================================== *)
(** * [IoTCarbonTracker] ([iot_carbon_integration.py]) *)

Module IoT.

(** ** Python dictionaries and strings *)

(** A dictionary with string keys, in insertion order. *)
Definition dict (V : Type) : Type := list (string * V).

Definition keys {V : Type} (d : dict V) : list string := map fst d.

(** [d.get(k)] *)
Fixpoint dict_get {V : Type} (k : string) (d : dict V) : option V :=
  match d with
  | [] => None
  | (k', v) :: d' => if String.eqb k' k then Some v else dict_get k d'
  end.

(** [d[k] = v]: the value of an existing key is replaced where it stands,
    a new key goes to the end. *)
Fixpoint dict_set {V : Type} (k : string) (v : V) (d : dict V) : dict V :=
  match d with
  | [] => [(k, v)]
  | (k', v') :: d' =>
      if String.eqb k' k then (k', v) :: d' else (k', v') :: dict_set k v d'
  end.

(** [sub in s] on strings. *)
Definition contains (sub s : string) : bool :=
  match index 0 sub s with
  | Some _ => true
  | None => false
  end.

(** [s.split(c)] for a one-character separator. *)
Fixpoint split_on (c : ascii) (s : string) : list string :=
  match s with
  | EmptyString => [EmptyString]
  | String a s' =>
      if Ascii.eqb a c then EmptyString :: split_on c s'
      else match split_on c s' with
           | [] => [String a EmptyString]
           | piece :: pieces => String a piece :: pieces
           end
  end.

(** ** The tracker *)

(** [self.carbon_factors], a dictionary with three fixed keys. *)
Record carbon_factors : Type := {
  electricity : Qc;
  gas : Qc;
  water : Qc
}.

(** The factors set by [__init__]. *)
Definition default_carbon_factors : carbon_factors :=
  {| electricity := dec 233 1000; gas := dec 184 1000; water := dec 3 10000 |}.

(** An entry of the dictionary built by
    [calculate_device_carbon_footprint]. *)
Record device_entry : Type := {
  carbon_emissions : Qc;
  readings : dict Qc;
  timestamp : Z
}.

(** ** [simulate_iot_data] *)

(** The eleven values drawn by [random.uniform], in the order drawn. *)
Record iot_draws : Type := {
  temperature : Qc;
  heating_power : Qc;
  energy_consumed : Qc;
  current_power : Qc;
  daily_consumption : Qc;
  flow_rate : Qc;
  daily_usage : Qc;
  charging_power : Qc;
  energy_delivered : Qc;
  current_generation : Qc;
  daily_generation : Qc
}.

(** [random.uniform(lo, hi)] returns a value between its bounds. *)
Definition between (lo hi x : Qc) : Prop := (lo <= x)%Qc /\ (x <= hi)%Qc.

Definition drawn_in_range (r : iot_draws) : Prop :=
  between (Qc_of_Z 18) (Qc_of_Z 24) (temperature r)
  /\ between 0%Qc (Qc_of_Z 3) (heating_power r)
  /\ between (dec 1 2) (dec 5 2) (energy_consumed r)
  /\ between (dec 1 2) (Qc_of_Z 4) (current_power r)
  /\ between (Qc_of_Z 15) (Qc_of_Z 45) (daily_consumption r)
  /\ between 0%Qc (Qc_of_Z 15) (flow_rate r)
  /\ between (Qc_of_Z 150) (Qc_of_Z 400) (daily_usage r)
  /\ between 0%Qc (dec 74 10) (charging_power r)
  /\ between 0%Qc (Qc_of_Z 50) (energy_delivered r)
  /\ between 0%Qc (Qc_of_Z 5) (current_generation r)
  /\ between (Qc_of_Z 10) (Qc_of_Z 35) (daily_generation r).

Definition simulate_iot_data (r : iot_draws) (user_id : Z) : dict (dict Qc) :=
  [("smart_thermostat"%string,
    [("temperature"%string, temperature r);
     ("heating_power"%string, heating_power r);
     ("energy_consumed"%string, energy_consumed r)]);
   ("smart_meter_electricity"%string,
    [("current_power"%string, current_power r);
     ("daily_consumption"%string, daily_consumption r)]);
   ("smart_water_meter"%string,
    [("flow_rate"%string, flow_rate r);
     ("daily_usage"%string, daily_usage r)]);
   ("ev_charger"%string,
    [("charging_power"%string, charging_power r);
     ("energy_delivered"%string, energy_delivered r)]);
   ("solar_panels"%string,
    [("current_generation"%string, current_generation r);
     ("daily_generation"%string, daily_generation r)])].

(** ** [calculate_device_carbon_footprint] *)

(** The body of the loop: the emission of one device. *)
Definition device_carbon
    (factors : carbon_factors) (device_name : string) (rd : dict Qc) : Qc :=
  let device_carbon := 0%Qc in
  let device_carbon :=
    match dict_get "energy_consumed" rd with
    | Some v => (device_carbon + v * electricity factors)%Qc
    | None =>
        match dict_get "daily_consumption" rd with
        | Some v => (device_carbon + v * electricity factors)%Qc
        | None =>
            match dict_get "daily_usage" rd with
            | Some v =>
                if contains "water" device_name
                then (device_carbon + v * water factors)%Qc
                else device_carbon
            | None => device_carbon
            end
        end
    end in
  match dict_get "daily_generation" rd with
  | Some v =>
      if contains "solar" device_name
      then (device_carbon - v * electricity factors)%Qc
      else device_carbon
  | None => device_carbon
  end.

(** The four reading names the loop body looks at. *)
Definition recognised_reading (k : string) : Prop :=
  k = "energy_consumed"%string \/ k = "daily_consumption"%string
  \/ k = "daily_usage"%string \/ k = "daily_generation"%string.

(** The loop over [device_data.items()]; [now i] is the clock read in
    iteration [i]. *)
Fixpoint footprint_loop
    (factors : carbon_factors) (now : nat -> Z) (i : nat)
    (items : dict (dict Qc)) (carbon_data : dict device_entry)
  : dict device_entry :=
  match items with
  | [] => carbon_data
  | (device_name, rd) :: rest =>
      footprint_loop factors now (S i) rest
        (dict_set device_name
           {| carbon_emissions := device_carbon factors device_name rd;
              readings := rd;
              timestamp := now i |}
           carbon_data)
  end.

Definition calculate_device_carbon_footprint
    (factors : carbon_factors) (now : nat -> Z) (device_data : dict (dict Qc))
  : dict device_entry :=
  footprint_loop factors now 0 device_data [].

(** ** [store_iot_data] *)

(** A row of [iot_device_data]. *)
Record iot_row : Type := {
  ir_user_id : Z;
  ir_device_type : string;
  ir_device_name : string;
  ir_energy_consumption : Qc;
  ir_timestamp : Z
}.

(** [device_name.split('_')[1] if '_' in device_name else device_name] *)
Definition device_type_of (device_name : string) : string :=
  if contains "_" device_name
  then nth 1 (split_on "_"%char device_name) EmptyString
  else device_name.

(** One [INSERT] per device, in dictionary order. *)
Definition store_iot_data
    (table : list iot_row) (user_id : Z) (device_data : dict device_entry)
  : list iot_row :=
  table
  ++ map (fun item =>
            {| ir_user_id := user_id;
               ir_device_type := device_type_of (fst item);
               ir_device_name := fst item;
               ir_energy_consumption :=
                 match dict_get "energy_consumed" (readings (snd item)) with
                 | Some v => v
                 | None => 0%Qc
                 end;
               ir_timestamp := timestamp (snd item) |})
         device_data.

(** ** [get_real_time_carbon_data] *)

Record real_time_report : Type := {
  rt_user_id : Z;
  rt_timestamp : Z;
  total_carbon_emissions : Qc;
  device_breakdown : dict device_entry;
  high_carbon_devices : list string;
  carbon_saving_devices : list string
}.

(** The report, and the table [iot_device_data] after the call.  The
    clock is read once per device and once more for the report. *)
Definition get_real_time_carbon_data
    (factors : carbon_factors) (draws : iot_draws) (now : nat -> Z)
    (table : list iot_row) (user_id : Z)
  : real_time_report * list iot_row :=
  let iot_data := simulate_iot_data draws user_id in
  let carbon_data := calculate_device_carbon_footprint factors now iot_data in
  let table' := store_iot_data table user_id carbon_data in
  let total_carbon := sum (map (fun item => carbon_emissions (snd item))
                               carbon_data) in
  ({| rt_user_id := user_id;
      rt_timestamp := now (length iot_data);
      total_carbon_emissions := total_carbon;
      device_breakdown := carbon_data;
      high_carbon_devices :=
        map fst (filter (fun item =>
                           Qcltb (Qc_of_Z 1) (carbon_emissions (snd item)))
                        carbon_data);
      carbon_saving_devices :=
        map fst (filter (fun item =>
                           Qcltb (carbon_emissions (snd item)) 0%Qc)
                        carbon_data) |},
   table').

(** ** Sample values *)

(** Every draw at the lower bound of its range. *)
Definition low_draws : iot_draws :=
  {| temperature := Qc_of_Z 18; heating_power := 0%Qc;
     energy_consumed := dec 1 2; current_power := dec 1 2;
     daily_consumption := Qc_of_Z 15; flow_rate := 0%Qc;
     daily_usage := Qc_of_Z 150; charging_power := 0%Qc;
     energy_delivered := 0%Qc; current_generation := 0%Qc;
     daily_generation := Qc_of_Z 10 |}.

(** A clock that advances by one at each reading. *)
Definition ticking (start : Z) (i : nat) : Z := start + Z.of_nat i.

(** A heat pump reporting both its own consumption and a daily total. *)
Definition heat_pump_readings : dict Qc :=
  [("energy_consumed"%string, Qc_of_Z 2);
   ("daily_usage"%string, Qc_of_Z 9)].

End IoT.

(* ================================================================== *)
(** * [create_carbon_database] ([carbon_database_setup.py]) *)

Module Setup.

(** The function is modelled as run on a new database file: every table
    is created empty, [AUTOINCREMENT] numbers the inserted rows from 1,
    and the store returned is what [commit] writes.  The values obtained
    from [random] are an argument. *)

(** ** Tables with the columns the analytics do not read *)

Record category_row : Type := {
  cat_row : activity_category_row;
  cat_unit : string;
  cat_carbon_factor : Qc
}.

Record user_row : Type := {
  user_id : Z;
  user_name : string;
  user_email : string;
  household_size : Z;
  location : string
}.

Record activity_row : Type := {
  act_row : daily_activity_row;
  act_activity_date : date
}.

Record trip_row : Type := {
  trip_base : transportation_row;
  trip_transport_mode : string;
  trip_distance : Qc;
  trip_fuel_type : string
}.

Record store : Type := {
  users : list user_row;
  categories : list category_row;
  activities : list activity_row;
  trips : list trip_row;
  homes : list home_energy_row
}.

(** The tables as the analytics module reads them. *)
Definition analytics_view (s : store) : database :=
  {| home_energy := homes s;
     transportation := map trip_base (trips s);
     daily_activities := map act_row (activities s);
     activity_categories := map cat_row (categories s) |}.

(** ** Inserted reference data *)

Definition activity_categories_data : list (string * string * Qc) :=
  [("Electricity", "kWh", dec 233 1000);
   ("Natural Gas", "kWh", dec 184 1000);
   ("Water Usage", "L", dec 3 10000);
   ("Car Petrol", "km", dec 171 1000);
   ("Car Diesel", "km", dec 164 1000);
   ("Public Transport", "km", dec 41 1000);
   ("Flight Domestic", "km", dec 255 1000);
   ("Flight International", "km", dec 195 1000);
   ("Food Meat", "kg", dec 726 100);
   ("Food Vegetables", "kg", dec 43 100);
   ("Waste Recycling", "kg", dec (-1) 10);
   ("Waste Landfill", "kg", dec 8 10)]%string.

Definition sample_users : list (string * string * Z * string) :=
  [("John Doe", "john.doe@email.com", 4, "London, UK");
   ("Jane Smith", "jane.smith@email.com", 2, "Manchester, UK");
   ("Alice Brown", "alice.brown@email.com", 1, "Birmingham, UK")]%string.

(** [INSERT] into an empty [AUTOINCREMENT] table: identifiers 1, 2, ... *)
Definition numbered {A B : Type} (mk : Z -> A -> B) (l : list A) : list B :=
  map (fun p => mk (Z.of_nat (S (fst p))) (snd p))
      (combine (seq 0 (length l)) l).

Definition inserted_categories : list category_row :=
  numbered (fun id c =>
              {| cat_row := {| ac_category_id := id;
                               ac_category_name := fst (fst c) |};
                 cat_unit := snd (fst c);
                 cat_carbon_factor := snd c |})
           activity_categories_data.

Definition inserted_users : list user_row :=
  numbered (fun id u =>
              {| user_id := id;
                 user_name := fst (fst (fst u));
                 user_email := snd (fst (fst u));
                 household_size := snd (fst u);
                 location := snd u |})
           sample_users.

(** ** Random values *)

(** The three modes [random.choice] picks from. *)
Inductive transport_mode : Type := Car_Petrol | Car_Diesel | Public_Transport.

Definition mode_name (m : transport_mode) : string :=
  match m with
  | Car_Petrol => "Car Petrol"
  | Car_Diesel => "Car Diesel"
  | Public_Transport => "Public Transport"
  end.

(** The values drawn for each user and day. *)
Record seed_draws : Type := {
  quantity : Z -> nat -> Z -> Qc;
  takes_transport : Z -> nat -> bool;
  mode : Z -> nat -> transport_mode;
  distance : Z -> nat -> Qc;
  electricity : Z -> nat -> Qc;
  gas : Z -> nat -> Qc;
  water : Z -> nat -> Qc;
  heating : Z -> nat -> Qc
}.

Definition between (lo hi x : Qc) : Prop := (lo <= x)%Qc /\ (x <= hi)%Qc.

(** Every [random.uniform(lo, hi)] gave a value between its bounds. *)
Definition drawn_in_range (r : seed_draws) : Prop :=
  forall (u : Z) (day : nat),
    between (Qc_of_Z 15) (Qc_of_Z 45) (quantity r u day 1)
    /\ between (Qc_of_Z 10) (Qc_of_Z 30) (quantity r u day 2)
    /\ between (Qc_of_Z 150) (Qc_of_Z 400) (quantity r u day 3)
    /\ between (Qc_of_Z 5) (Qc_of_Z 50) (distance r u day)
    /\ between (Qc_of_Z 15) (Qc_of_Z 45) (electricity r u day)
    /\ between (Qc_of_Z 10) (Qc_of_Z 30) (gas r u day)
    /\ between (Qc_of_Z 150) (Qc_of_Z 400) (water r u day)
    /\ between (Qc_of_Z 5) (Qc_of_Z 25) (heating r u day).

(** ** Generated rows *)

Definition user_ids : list Z := [1; 2; 3].

(** [start_date + timedelta(days=day)], with
    [start_date = now - timedelta(days=365)]. *)
Definition current_date (today : date) (day : nat) : date :=
  today - 365 + Z.of_nat day.

(** [SELECT carbon_factor FROM activity_categories WHERE category_id = ?],
    [fetchone()[0]]. *)
Definition carbon_factor_of (table : list category_row) (category_id : Z)
  : option Qc :=
  match filter (fun c => ac_category_id (cat_row c) =? category_id) table with
  | [] => None
  | c :: _ => Some (cat_carbon_factor c)
  end.

Definition activity_of
    (r : seed_draws) (today : date) (u : Z) (day : nat) (category_id : Z)
  : option activity_row :=
  match carbon_factor_of inserted_categories category_id with
  | None => None
  | Some carbon_factor =>
      Some {| act_row :=
                {| da_user_id := u;
                   da_category_id := category_id;
                   da_quantity := quantity r u day category_id;
                   da_carbon_emissions :=
                     (quantity r u day category_id * carbon_factor)%Qc |};
              act_activity_date := current_date today day |}
  end.

Definition mode_factor (m : transport_mode) : Qc :=
  match m with
  | Car_Petrol => dec 171 1000
  | Car_Diesel => dec 164 1000
  | Public_Transport => dec 41 1000
  end.

(** [transport_mode.split()[1] if 'Car' in transport_mode else 'Electric'];
    the names of the three modes hold single spaces, where [split()] and
    a split on the space agree, and a car mode has a second word. *)
Definition fuel_type_of (m : transport_mode) : string :=
  if IoT.contains "Car" (mode_name m)
  then nth 1 (IoT.split_on " "%char (mode_name m)) EmptyString
  else "Electric"%string.

Definition trip_of (r : seed_draws) (today : date) (u : Z) (day : nat)
  : trip_row :=
  {| trip_base :=
       {| tr_user_id := u;
          tr_carbon_emissions := (distance r u day * mode_factor (mode r u day))%Qc;
          tr_activity_date := current_date today day |};
     trip_transport_mode := mode_name (mode r u day);
     trip_distance := distance r u day;
     trip_fuel_type := fuel_type_of (mode r u day) |}.

Definition home_of (r : seed_draws) (today : date) (u : Z) (day : nat)
  : home_energy_row :=
  {| he_user_id := u;
     he_electricity_usage := Some (electricity r u day);
     he_gas_usage := Some (gas r u day);
     he_water_usage := Some (water r u day);
     he_heating_usage := Some (heating r u day);
     he_carbon_emissions :=
       (electricity r u day * dec 233 1000 + gas r u day * dec 184 1000
        + water r u day * dec 3 10000 + heating r u day * dec 2 10)%Qc;
     he_consumption_date := current_date today day |}.

(** Over the users and the 365 days, in the order the rows are appended. *)
Definition over_days {A : Type} (f : Z -> nat -> list A) : list A :=
  flat_map (fun u => flat_map (f u) (seq 0 365)) user_ids.

Definition option_list {A : Type} (o : option A) : list A :=
  match o with
  | Some a => [a]
  | None => []
  end.

Definition create_carbon_database (r : seed_draws) (today : date) : store :=
  {| users := inserted_users;
     categories := inserted_categories;
     activities :=
       over_days (fun u day =>
                    flat_map (fun c => option_list (activity_of r today u day c))
                             [1; 2; 3]);
     trips :=
       over_days (fun u day =>
                    if takes_transport r u day then [trip_of r today u day]
                    else []);
     homes := over_days (fun u day => [home_of r today u day]) |}.

(** ** The seeded rows as the analytics meet them *)




(** The activity logged for a user, day and category with a given carbon
    factor, as the ranking reads it. *)
Definition seeded_activity
    (r : seed_draws) (u : Z) (day : nat) (category_id : Z) (factor : Qc)
  : daily_activity_row :=
  {| da_user_id := u;
     da_category_id := category_id;
     da_quantity := quantity r u day category_id;
     da_carbon_emissions := (quantity r u day category_id * factor)%Qc |}.


(** ** Sample values *)

(** Every value at the lower bound of its range, petrol car trips on even
    days. *)
Definition low_draws : seed_draws :=
  {| quantity := fun _ _ c =>
       if c =? 1 then Qc_of_Z 15 else if c =? 2 then Qc_of_Z 10
       else Qc_of_Z 150;
     takes_transport := fun _ day => Nat.even day;
     mode := fun _ _ => Car_Petrol;
     distance := fun _ _ => Qc_of_Z 5;
     electricity := fun _ _ => Qc_of_Z 15;
     gas := fun _ _ => Qc_of_Z 10;
     water := fun _ _ => Qc_of_Z 150;
     heating := fun _ _ => Qc_of_Z 5 |}.

End Setup.

(* ================================================================== *)
(** * [ExcelPowerBIIntegration.export_data_to_excel]
      ([exce_powerbi_integration.py]) *)

Module Excel.

(** The frame fetched by the export query, written to the sheet
    [Carbon_Data], and the sheet [Monthly_Trends] computed from it.  The
    query reads the full tables, which [Setup.store] holds.  A
    home-energy row whose [user_id] is NULL has no counterpart in the
    store and is outside the model; the sheet [User_Summary] is not
    modelled. *)

(** A row of the fetched frame.  [User_Name] is NULL when the user of the
    home-energy row is in no row of [users]. *)
Record export_row : Type := {
  Date : date;
  User_ID : Z;
  User_Name : option string;
  Electricity_kWh : option Qc;
  Gas_kWh : option Qc;
  Water_L : option Qc;
  Heating_kWh : option Qc;
  Transport_Mode : string;
  Distance_km : Qc;
  Home_CO2 : Qc;
  Transport_CO2 : Qc;
  Total_CO2 : Qc
}.

(** [a LEFT JOIN b ON on]: every left row is kept; it is paired with each
    matching right row, or with NULL when there is none. *)
Definition left_join {A B : Type} (on : A -> B -> bool)
    (l : list A) (r : list B) : list (A * option B) :=
  flat_map (fun a => match filter (on a) r with
                     | [] => [(a, None)]
                     | ms => map (fun b => (a, Some b)) ms
                     end)
           l.

(** [ON h.user_id = u.user_id] *)
Definition on_user (h : home_energy_row) (u : Setup.user_row) : bool :=
  he_user_id h =? Setup.user_id u.

(** [ON h.user_id = t.user_id AND h.consumption_date = t.activity_date] *)
Definition on_trip (h : home_energy_row) (t : Setup.trip_row) : bool :=
  (he_user_id h =? tr_user_id (Setup.trip_base t))
  && (he_consumption_date h =? tr_activity_date (Setup.trip_base t)).

(** The rows of [users] and of [transportation] a home-energy row is
    joined with. *)
Definition users_of (s : Setup.store) (h : home_energy_row)
  : list Setup.user_row :=
  filter (on_user h) (Setup.users s).
Definition trips_on (s : Setup.store) (h : home_energy_row)
  : list Setup.trip_row :=
  filter (on_trip h) (Setup.trips s).

(** [home_energy h LEFT JOIN users u ON ... LEFT JOIN transportation t
    ON ...] *)
Definition joined (s : Setup.store)
  : list (home_energy_row * option Setup.user_row * option Setup.trip_row) :=
  left_join (fun hu t => on_trip (fst hu) t)
            (left_join on_user (Setup.homes s) (Setup.users s))
            (Setup.trips s).

(** The [SELECT] list, with its three [COALESCE]. *)
Definition row_of
    (j : home_energy_row * option Setup.user_row * option Setup.trip_row)
  : export_row :=
  let h := fst (fst j) in
  let transport_co2 :=
    match snd j with
    | Some t => tr_carbon_emissions (Setup.trip_base t)
    | None => 0%Qc
    end in
  {| Date := he_consumption_date h;
     User_ID := he_user_id h;
     User_Name := option_map Setup.user_name (snd (fst j));
     Electricity_kWh := he_electricity_usage h;
     Gas_kWh := he_gas_usage h;
     Water_L := he_water_usage h;
     Heating_kWh := he_heating_usage h;
     Transport_Mode := match snd j with
                       | Some t => Setup.trip_transport_mode t
                       | None => "None"%string
                       end;
     Distance_km := match snd j with
                    | Some t => Setup.trip_distance t
                    | None => 0%Qc
                    end;
     Home_CO2 := he_carbon_emissions h;
     Transport_CO2 := transport_co2;
     Total_CO2 := (he_carbon_emissions h + transport_co2)%Qc |}.

(** [ORDER BY key DESC] on an integer key. *)
Definition desc_by {A : Type} (key : A -> Z) (a b : A) : bool :=
  key b <=? key a.

(** The frame [df] read by [pd.read_sql_query], the sheet
    [Carbon_Data]. *)
Definition carbon_data (s : Setup.store) : list export_row :=
  map row_of
      (order_by (desc_by (fun j => he_consumption_date (fst (fst j))))
                (joined s)).

(** The calendar year of a date. *)
Definition year_of (d : date) : Z :=
  let era := (d + 719468) / 146097 in
  let doe := (d + 719468) mod 146097 in
  let yoe := (doe - doe / 1460 + doe / 36524 - doe / 146096) / 365 in
  let mp := (5 * day_of_march_year d + 2) / 153 in
  yoe + era * 400 + (if mp <? 10 then 0 else 1).

(** [dt.to_period('M')], as the number of the month counted from January
    1970; the sheet shows it as year and month. *)
Definition period_M (d : date) : Z :=
  (year_of d - 1970) * 12 + (month_of d - 1).

(** [df.groupby('Month')['Total_CO2'].sum().reset_index()]: one row per
    month present, by ascending month. *)
Definition monthly_trends (df : list export_row) : list (Z * Qc) :=
  order_by (asc_by fst)
    (map (fun g => (fst g, sum (map Total_CO2 (snd g))))
         (group_by Z.eqb (fun r => period_M (Date r)) df)).

(** The sheets [Carbon_Data] and [Monthly_Trends] written to the file. *)
Definition export_data_to_excel (s : Setup.store)
  : list export_row * list (Z * Qc) :=
  let df := carbon_data s in
  (df, monthly_trends df).

(** ** Sample values *)

(** One user, one home-energy row on day 19000 and two trips on that
    day. *)
Definition two_trip_store : Setup.store :=
  {| Setup.users :=
       [{| Setup.user_id := 1; Setup.user_name := "John Doe";
           Setup.user_email := "john.doe@email.com";
           Setup.household_size := 4; Setup.location := "London, UK" |}];
     Setup.categories := [];
     Setup.activities := [];
     Setup.trips :=
       [{| Setup.trip_base := Samples.trip 1 19000 (Qc_of_Z 2);
           Setup.trip_transport_mode := "Car Petrol";
           Setup.trip_distance := Qc_of_Z 10;
           Setup.trip_fuel_type := "Petrol" |};
        {| Setup.trip_base := Samples.trip 1 19000 (Qc_of_Z 3);
           Setup.trip_transport_mode := "Public Transport";
           Setup.trip_distance := Qc_of_Z 20;
           Setup.trip_fuel_type := "Electric" |}];
     Setup.homes := [Samples.home 1 19000 (Some (Qc_of_Z 20)) (Qc_of_Z 10)] |}.

End Excel.

(* ================================================================== *)
(** * Facts about the numeric layer *)

Lemma Qcltb_lt (x y : Qc) : Qcltb x y = true <-> (x < y)%Qc.
Proof.
  unfold Qcltb. rewrite Qclt_alt.
  destruct (x ?= y)%Qc; split; congruence.
Qed.




Lemma sum_app (l1 l2 : list Qc) : sum (l1 ++ l2) = (sum l1 + sum l2)%Qc.
Proof.
  induction l1 as [| x l1 IH]; simpl.
  - ring.
  - rewrite IH. ring.
Qed.

Lemma sum_Permutation (l1 l2 : list Qc) :
  Permutation l1 l2 -> sum l1 = sum l2.
Proof.
  induction 1; simpl; try congruence; ring.
Qed.

(** Closed equalities between rationals are decided on their fractions. *)
Ltac qc_compute := apply Qc_is_canon; vm_compute; reflexivity.

(* ================================================================== *)
(** * Facts about grouping *)

Section GroupFacts.
Context {K V : Type}.
Variable eqb : K -> K -> bool.
Hypothesis eqb_eq : forall a b, eqb a b = true <-> a = b.

Lemma eqb_refl_true (a : K) : eqb a a = true.
Proof. now apply eqb_eq. Qed.

Lemma existsb_eqb_In (k : K) (seen : list K) :
  existsb (eqb k) seen = true <-> In k seen.
Proof.
  rewrite existsb_exists. split.
  - intros [x [Hin Hx]]. apply eqb_eq in Hx. now subst.
  - intro Hin. exists k. split; [assumption | apply eqb_refl_true].
Qed.

Lemma In_distinct_from (k : K) (l seen : list K) :
  In k (distinct_from eqb seen l) <-> In k l /\ ~ In k seen.
Proof.
  revert seen. induction l as [| a l IH]; intro seen; simpl.
  - tauto.
  - destruct (existsb (eqb a) seen) eqn:E.
    + apply existsb_eqb_In in E. rewrite IH. split.
      * intros [H1 H2]. tauto.
      * intros [[-> | H1] H2]; tauto.
    + assert (Hn : ~ In a seen).
      { intro Hin. apply existsb_eqb_In in Hin. congruence. }
      simpl. rewrite IH. simpl. split.
      * intros [-> | [H1 H2]]; tauto.
      * intros [[-> | H1] H2]; [now left |].
        destruct (eqb a k) eqn:Eak.
        -- apply eqb_eq in Eak. now left.
        -- right. split; [assumption |].
           intros [-> | H3]; [| tauto].
           rewrite eqb_refl_true in Eak. discriminate.
Qed.

Lemma NoDup_distinct_from (l seen : list K) :
  NoDup (distinct_from eqb seen l).
Proof.
  revert seen. induction l as [| a l IH]; intro seen; simpl.
  - constructor.
  - destruct (existsb (eqb a) seen); [apply IH |].
    constructor; [| apply IH].
    rewrite In_distinct_from. simpl. tauto.
Qed.

Lemma In_distinct (k : K) (l : list K) : In k (distinct eqb l) <-> In k l.
Proof. unfold distinct. rewrite In_distinct_from. simpl. tauto. Qed.

Lemma NoDup_distinct (l : list K) : NoDup (distinct eqb l).
Proof. apply NoDup_distinct_from. Qed.

(** Selecting one key among distinct keys finds it at most once. *)
Lemma filter_key_NoDup (k : K) (ks : list K) :
  NoDup ks ->
  filter (fun k' => eqb k k') ks = if existsb (eqb k) ks then [k] else [].
Proof.
  induction 1 as [| a ks Hnin Hnd IH]; simpl; [reflexivity |].
  destruct (eqb k a) eqn:E; simpl.
  - apply eqb_eq in E. subst a. rewrite IH.
    destruct (existsb (eqb k) ks) eqn:Ex; [| reflexivity].
    apply existsb_eqb_In in Ex. contradiction.
  - exact IH.
Qed.

Variable key : V -> K.

Lemma group_by_keys (rows : list V) :
  map fst (group_by eqb key rows) = distinct eqb (map key rows).
Proof.
  unfold group_by. rewrite map_map. simpl. apply map_id.
Qed.

Lemma group_by_In (g : K * list V) (rows : list V) :
  In g (group_by eqb key rows) ->
  snd g = filter (fun r => eqb (key r) (fst g)) rows /\
  exists r, In r rows /\ key r = fst g.
Proof.
  unfold group_by. rewrite in_map_iff.
  intros [k [<- Hk]]. simpl. split; [reflexivity |].
  apply (proj1 (In_distinct _ _)) in Hk. apply in_map_iff in Hk.
  destruct Hk as [r [Hr Hin]]. eauto.
Qed.

Lemma group_by_nil (rows : list V) :
  rows = [] -> group_by eqb key rows = [].
Proof. intros ->. reflexivity. Qed.

(** Every row falls in exactly one group: a per-group [SUM] adds up to
    the [SUM] over all rows. *)
Lemma sum_select_key (f : V -> Qc) (r : V) (g : K -> Qc) (ks : list K) :
  NoDup ks ->
  sum (map (fun k => if eqb (key r) k then (f r + g k)%Qc else g k) ks)
  = ((if existsb (eqb (key r)) ks then f r else 0) + sum (map g ks))%Qc.
Proof.
  induction 1 as [| a ks Hnin Hnd IH]; simpl; [ring |].
  rewrite IH. destruct (eqb (key r) a) eqn:E; simpl.
  - apply eqb_eq in E. subst a.
    destruct (existsb (eqb (key r)) ks) eqn:Ex.
    + apply existsb_eqb_In in Ex. contradiction.
    + ring.
  - ring.
Qed.

Lemma sum_groups_over (f : V -> Qc) (rows : list V) (ks : list K) :
  NoDup ks ->
  (forall r, In r rows -> In (key r) ks) ->
  sum (map (fun k => sum (map f (filter (fun r => eqb (key r) k) rows))) ks)
  = sum (map f rows).
Proof.
  intros Hnd. induction rows as [| r rows IH]; intro Hin.
  - simpl. clear Hnd Hin.
    induction ks as [| k ks IHk]; simpl; [reflexivity |].
    rewrite IHk. ring.
  - simpl.
    rewrite (map_ext
               (fun k => sum (map f (if eqb (key r) k
                                     then r :: filter (fun r0 => eqb (key r0) k) rows
                                     else filter (fun r0 => eqb (key r0) k) rows)))
               (fun k => if eqb (key r) k
                         then (f r + sum (map f (filter (fun r0 => eqb (key r0) k) rows)))%Qc
                         else sum (map f (filter (fun r0 => eqb (key r0) k) rows)))).
    2:{ intro k. destruct (eqb (key r) k); reflexivity. }
    rewrite (sum_select_key f r
               (fun k => sum (map f (filter (fun r0 => eqb (key r0) k) rows))))
      by assumption.
    rewrite IH by (intros r' Hr'; apply Hin; now right).
    assert (Hex : existsb (eqb (key r)) ks = true).
    { apply existsb_eqb_In. apply Hin. now left. }
    rewrite Hex. reflexivity.
Qed.

Lemma sum_group_by (f : V -> Qc) (rows : list V) :
  sum (map (fun g => sum (map f (snd g))) (group_by eqb key rows))
  = sum (map f rows).
Proof.
  unfold group_by. rewrite map_map. simpl.
  apply sum_groups_over.
  - apply NoDup_distinct.
  - intros r Hr. apply In_distinct. now apply in_map.
Qed.

End GroupFacts.

(* ================================================================== *)
(** * Facts about ordering *)

Section OrderFacts.
Context {A : Type}.
Variable leb : A -> A -> bool.

Lemma insert_sorted_Permutation (x : A) (l : list A) :
  Permutation (insert_sorted leb x l) (x :: l).
Proof.
  induction l as [| y l IH]; simpl.
  - reflexivity.
  - destruct (leb x y).
    + reflexivity.
    + rewrite IH. apply perm_swap.
Qed.

Lemma order_by_Permutation (l : list A) : Permutation (order_by leb l) l.
Proof.
  induction l as [| x l IH]; simpl.
  - constructor.
  - rewrite insert_sorted_Permutation. now constructor.
Qed.

Lemma order_by_In (x : A) (l : list A) : In x (order_by leb l) <-> In x l.
Proof.
  split; apply Permutation_in;
    [| symmetry]; apply order_by_Permutation.
Qed.

Lemma order_by_length (l : list A) : length (order_by leb l) = length l.
Proof. apply Permutation_length, order_by_Permutation. Qed.

Lemma order_by_nil (l : list A) : l = [] -> order_by leb l = [].
Proof. intros ->. reflexivity. Qed.

Hypothesis leb_total : forall a b, leb a b = false -> leb b a = true.
Hypothesis leb_trans :
  forall a b c, leb a b = true -> leb b c = true -> leb a c = true.

Let le (a b : A) : Prop := leb a b = true.

Lemma insert_sorted_StronglySorted (x : A) (l : list A) :
  StronglySorted le l -> StronglySorted le (insert_sorted leb x l).
Proof.
  induction 1 as [| y l Hs IH Hall]; simpl.
  - repeat constructor.
  - destruct (leb x y) eqn:E.
    + constructor; [now constructor |].
      constructor; [exact E |].
      eapply Forall_impl; [| exact Hall].
      intros z Hz. eapply leb_trans; eassumption.
    + constructor; [exact IH |].
      apply Forall_forall. intros z Hz.
      apply (Permutation_in _ (insert_sorted_Permutation x l)) in Hz.
      destruct Hz as [<- | Hz].
      * now apply leb_total.
      * rewrite Forall_forall in Hall. now apply Hall.
Qed.

Lemma order_by_StronglySorted (l : list A) :
  StronglySorted le (order_by leb l).
Proof.
  induction l as [| x l IH]; simpl.
  - constructor.
  - now apply insert_sorted_StronglySorted.
Qed.

End OrderFacts.


Lemma StronglySorted_weaken {A : Type} (R1 R2 : A -> A -> Prop) (l : list A) :
  (forall a b, R1 a b -> R2 a b) ->
  StronglySorted R1 l -> StronglySorted R2 l.
Proof.
  intros Himp. induction 1 as [| x l Hs IH Hall]; constructor.
  - exact IH.
  - eapply Forall_impl; [| exact Hall]. intros y. apply Himp.
Qed.


Lemma StronglySorted_map {A B : Type} (R : B -> B -> Prop) (f : A -> B)
    (l : list A) :
  StronglySorted (fun a b => R (f a) (f b)) l -> StronglySorted R (map f l).
Proof.
  induction 1 as [| x l Hs IH Hall]; simpl; constructor.
  - exact IH.
  - rewrite Forall_forall in *. intros y Hy.
    apply in_map_iff in Hy. destruct Hy as [z [<- Hz]]. now apply Hall.
Qed.

(** Ascending keys without repetition are strictly ascending. *)
Lemma StronglySorted_strict {A : Type} (f : A -> Z) (l : list A) :
  StronglySorted (fun a b => f a <= f b) l ->
  NoDup (map f l) ->
  StronglySorted (fun a b => f a < f b) l.
Proof.
  induction 1 as [| x l Hs IH Hall]; simpl; intro Hnd.
  - constructor.
  - inversion Hnd as [| ? ? Hnin Hnd']; subst.
    constructor; [now apply IH |].
    rewrite Forall_forall in *. intros y Hy.
    specialize (Hall y Hy).
    assert (f x <> f y).
    { intro Heq. apply Hnin. rewrite Heq. now apply in_map. }
    lia.
Qed.

Lemma asc_by_total {A : Type} (key : A -> Z) (a b : A) :
  asc_by key a b = false -> asc_by key b a = true.
Proof. unfold asc_by. lia. Qed.

Lemma asc_by_trans {A : Type} (key : A -> Z) (a b c : A) :
  asc_by key a b = true -> asc_by key b c = true ->
  asc_by key a c = true.
Proof. unfold asc_by. lia. Qed.

(** [ORDER BY date] yields dates in ascending order. *)
Lemma order_by_date_sorted {A : Type} (date_of : A -> date) (l : list A) :
  StronglySorted (fun a b => date_of a <= date_of b)
                 (order_by (asc_by date_of) l).
Proof.
  apply (StronglySorted_weaken
           (fun a b => asc_by date_of a b = true)).
  - intros a b. unfold asc_by. lia.
  - apply order_by_StronglySorted.
    + apply asc_by_total.
    + apply asc_by_trans.
Qed.

(* ================================================================== *)
(** * Timeline Aggregator *)



(* ================================================================== *)
(** * The join with the per-day transport totals *)

Lemma day_user_eqb_eq (a b : date * Z) : day_user_eqb a b = true <-> a = b.
Proof.
  destruct a as [d u], b as [d' u']. unfold day_user_eqb. simpl.
  rewrite andb_true_iff, !Z.eqb_eq. split.
  - intros [-> ->]. reflexivity.
  - intros [= -> ->]. split; reflexivity.
Qed.

(** The sub-query [t] has at most one row per day and user; when it has
    one, that row carries the sum of the day's transportation rows. *)
Lemma transport_matches (db : database) (u : Z) (d : date) :
  filter (fun t => (d =? td_activity_date t) && (u =? td_user_id t))
         (transport_per_day db)
  = match same_day_transport db u d with
    | [] => []
    | ts => [{| td_activity_date := d;
                td_user_id := u;
                td_transport_emissions := sum (map tr_carbon_emissions ts) |}]
    end.
Proof.
  unfold transport_per_day, group_by.
  rewrite map_map, filter_map_swap. simpl.
  rewrite (filter_ext _ (fun k => day_user_eqb (d, u) k))
    by reflexivity.
  rewrite (filter_key_NoDup day_user_eqb day_user_eqb_eq)
    by (apply NoDup_distinct; exact day_user_eqb_eq).
  assert (Hsame : filter (fun r => day_user_eqb
                                     (tr_activity_date r, tr_user_id r) (d, u))
                         (transportation db)
                  = same_day_transport db u d) by reflexivity.
  destruct (existsb _ _) eqn:Ex.
  - simpl. fold day_user_eqb. rewrite Hsame.
    apply (proj1 (existsb_eqb_In day_user_eqb day_user_eqb_eq _ _)) in Ex.
    apply (proj1 (In_distinct day_user_eqb day_user_eqb_eq _ _)) in Ex.
    apply in_map_iff in Ex. destruct Ex as [r [Hr Hin]].
    assert (Hmem : In r (same_day_transport db u d)).
    { apply filter_In. split; [exact Hin |].
      injection Hr as -> ->. rewrite !Z.eqb_refl. reflexivity. }
    destruct (same_day_transport db u d); [destruct Hmem | reflexivity].
  - simpl. destruct (same_day_transport db u d) as [| r ts] eqn:Es;
      [reflexivity |].
    assert (Hmem : In r (same_day_transport db u d))
      by (rewrite Es; now left).
    apply filter_In in Hmem. destruct Hmem as [Hin Hr].
    apply andb_true_iff in Hr. rewrite !Z.eqb_eq in Hr. destruct Hr as [Hd Hu].
    assert (Hk : existsb (day_user_eqb (d, u))
                   (distinct day_user_eqb
                      (map (fun r0 => (tr_activity_date r0, tr_user_id r0))
                           (transportation db))) = true).
    { apply (existsb_eqb_In day_user_eqb day_user_eqb_eq).
      apply (In_distinct day_user_eqb day_user_eqb_eq).
      apply in_map_iff. exists r. subst. split; [reflexivity | exact Hin]. }
    congruence.
Qed.

(** The left join keeps every home-energy row exactly once. *)
Lemma left_join_transport_rows (db : database) (hs : list home_energy_row) :
  left_join_transport db hs
  = map (fun h => (h, day_transport db (he_user_id h) (he_consumption_date h)))
        hs.
Proof.
  induction hs as [| h hs IH]; simpl; [reflexivity |].
  rewrite <- IH. fold (left_join_transport db hs).
  rewrite transport_matches. unfold day_transport.
  destruct (same_day_transport db (he_user_id h) (he_consumption_date h));
    reflexivity.
Qed.

Lemma coalesce0_day_transport (db : database) (u : Z) (d : date) :
  coalesce0 (day_transport db u d)
  = sum (map tr_carbon_emissions (same_day_transport db u d)).
Proof.
  unfold day_transport.
  destruct (same_day_transport db u d); reflexivity.
Qed.

(* ================================================================== *)
(** * Pattern Analyzer *)

(** Every row of the pattern frame comes from one home-energy row of the
    user, joined with the transport total of its day. *)
Lemma analyze_carbon_patterns_In (db : database) (u : Z) (p : pattern_row) :
  In p (analyze_carbon_patterns db u) <->
  exists h, In h (home_energy db) /\ he_user_id h = u /\
            p = pattern_of_fetched
                  (h, day_transport db u (he_consumption_date h)).
Proof.
  unfold analyze_carbon_patterns.
  rewrite left_join_transport_rows, in_map_iff. split.
  - intros [[h t] [<- Hin]]. apply order_by_In in Hin.
    apply in_map_iff in Hin. destruct Hin as [h' [[= <- <-] Hh]].
    apply filter_In in Hh. destruct Hh as [Hh Hu]. apply Z.eqb_eq in Hu.
    exists h'. rewrite Hu. auto.
  - intros [h [Hh [Hu ->]]].
    exists (h, day_transport db u (he_consumption_date h)).
    split; [reflexivity |].
    apply order_by_In. apply in_map_iff. exists h. split.
    + now rewrite Hu.
    + apply filter_In. split; [exact Hh | now apply Z.eqb_eq].
Qed.

Lemma analyze_carbon_patterns_length (db : database) (u : Z) :
  length (analyze_carbon_patterns db u)
  = length (filter (fun h => he_user_id h =? u) (home_energy db)).
Proof.
  unfold analyze_carbon_patterns.
  now rewrite length_map, order_by_length, left_join_transport_rows,
    length_map.
Qed.

(** C5. In the pattern frame of a user, every row carries a total equal to
    its home emission plus the sum of all of that user's transportation
    emissions of the same day; on a day without transportation rows the
    transport emission is 0 and the total is the home emission; a day with
    transportation rows of 1.5 and 2.5 has total home + 4; every row stems
    from a home-energy row of the user with that date (so a day without
    home-energy row is absent), and every home-energy row of the user is
    represented. *)
Theorem patterns_total_is_home_plus_transport (db : database) (u : Z) :
  let out := analyze_carbon_patterns db u in
  (forall p, In p out ->
     let ts := same_day_transport db u (consumption_date p) in
     transport_emissions p = sum (map tr_carbon_emissions ts)
     /\ total_emissions p
         = (home_emissions p + sum (map tr_carbon_emissions ts))%Qc
     /\ (ts = [] ->
          transport_emissions p = 0%Qc
          /\ total_emissions p = home_emissions p)
     /\ (map tr_carbon_emissions ts = [dec 3 2; dec 5 2] ->
          total_emissions p = (home_emissions p + Qc_of_Z 4)%Qc)
     /\ exists h, In h (home_energy db)
                  /\ he_user_id h = u
                  /\ he_consumption_date h = consumption_date p
                  /\ he_carbon_emissions h = home_emissions p)
  /\ (forall d,
        (forall h, In h (home_energy db) -> he_user_id h = u ->
                   he_consumption_date h <> d) ->
        forall p, In p out -> consumption_date p <> d)
  /\ (forall h, In h (home_energy db) -> he_user_id h = u ->
        exists p, In p out
                  /\ consumption_date p = he_consumption_date h
                  /\ home_emissions p = he_carbon_emissions h)
  /\ length out
      = length (filter (fun h => he_user_id h =? u) (home_energy db)).
Proof.
  intro out. subst out. repeat split.
  - apply analyze_carbon_patterns_In in H.
    destruct H as [h [_ [_ ->]]]. simpl. apply coalesce0_day_transport.
  - apply analyze_carbon_patterns_In in H.
    destruct H as [h [_ [_ ->]]]. simpl.
    now rewrite coalesce0_day_transport.
  - apply analyze_carbon_patterns_In in H.
    destruct H as [h [_ [_ ->]]]. simpl in *.
    rewrite coalesce0_day_transport, H0. reflexivity.
  - apply analyze_carbon_patterns_In in H.
    destruct H as [h [_ [_ ->]]]. simpl in *.
    rewrite coalesce0_day_transport, H0. simpl. ring.
  - intro Hts. apply analyze_carbon_patterns_In in H.
    destruct H as [h [_ [_ ->]]]. simpl in *.
    rewrite coalesce0_day_transport, Hts.
    f_equal. qc_compute.
  - apply analyze_carbon_patterns_In in H.
    destruct H as [h [Hh [Hu ->]]]. simpl. exists h. auto.
  - intros d Hnone p Hp Hd.
    apply analyze_carbon_patterns_In in Hp.
    destruct Hp as [h [Hh [Hu ->]]]. simpl in Hd.
    exact (Hnone h Hh Hu Hd).
  - intros h Hh Hu.
    exists (pattern_of_fetched (h, day_transport db u (he_consumption_date h))).
    split; [| split; reflexivity].
    apply analyze_carbon_patterns_In. exists h. auto.
  - apply analyze_carbon_patterns_length.
Qed.

Lemma patterns_total_is_home_plus_transport_witness :
  map tr_carbon_emissions (same_day_transport Samples.joined_store 1 5)
  = [dec 3 2; dec 5 2]
  /\ exists p, In p (analyze_carbon_patterns Samples.joined_store 1)
               /\ consumption_date p = 5
               /\ total_emissions p = (home_emissions p + Qc_of_Z 4)%Qc.
Proof.
  split; [reflexivity |].
  destruct (patterns_total_is_home_plus_transport Samples.joined_store 1)
    as [Hrows [_ [Hall _]]].
  destruct (Hall (Samples.home 1 5 (Some (Qc_of_Z 50)) (Qc_of_Z 7)))
    as [p [Hin [Hdate Hhome]]].
  - simpl. auto.
  - reflexivity.
  - exists p. split; [exact Hin |]. split; [exact Hdate |].
    apply (Hrows p Hin). rewrite Hdate. reflexivity.
Defined.

(* ================================================================== *)
(** * Activity Ranker *)




Lemma category_summaries_names (db : database) (u : Z) :
  map category_name (category_summaries db u)
  = distinct String.eqb (map fst (user_activities db u)).
Proof.
  unfold category_summaries. rewrite map_map. simpl.
  apply (group_by_keys String.eqb).
Qed.

Lemma category_summaries_In (db : database) (u : Z) (s : activity_summary) :
  In s (category_summaries db u) ->
  s = summarize
        (category_name s,
         filter (fun r => String.eqb (fst r) (category_name s))
                (user_activities db u))
  /\ exists r, In r (user_activities db u) /\ fst r = category_name s.
Proof.
  unfold category_summaries. rewrite in_map_iff.
  intros [[c rows] [<- Hg]].
  apply (group_by_In String.eqb String.eqb_eq) in Hg. simpl in *.
  destruct Hg as [-> Hex]. split; [reflexivity | exact Hex].
Qed.

Lemma full_ranking (db : database) (u : Z) :
  get_eco_heavy_activities db u (length (user_activities db u))
  = order_by by_total_desc (category_summaries db u).
Proof.
  unfold get_eco_heavy_activities. apply firstn_all2.
  rewrite order_by_length.
  rewrite <- (length_map category_name), category_summaries_names.
  rewrite <- (length_map fst (user_activities db u)).
  apply NoDup_incl_length.
  - apply NoDup_distinct. exact String.eqb_eq.
  - intros c Hc.
    exact (proj1 (In_distinct String.eqb String.eqb_eq _ _) Hc).
Qed.



(* ================================================================== *)
(** * Trend Detector *)

Lemma trend_frame_sorted
    (db : database) (today : date) (u : Z) (period_days : nat) :
  StronglySorted
    (fun a b => tf_consumption_date a <= tf_consumption_date b)
    (trend_frame db today u period_days).
Proof.
  unfold trend_frame. apply StronglySorted_map.
  simpl. apply (order_by_date_sorted (fun p => he_consumption_date (fst p))).
Qed.

(** The left join neither drops nor repeats a selected row. *)
Lemma trend_frame_length
    (db : database) (today : date) (u : Z) (period_days : nat) :
  length (trend_frame db today u period_days)
  = length (trend_selected db today u period_days).
Proof.
  unfold trend_frame.
  now rewrite length_map, order_by_length, left_join_transport_rows,
    length_map.
Qed.

(** Each fetched total is the home emission of a selected row plus the sum
    of the user's transportation emissions of that day. *)
Lemma trend_frame_In
    (db : database) (today : date) (u : Z) (period_days : nat)
    (row : trend_row) :
  In row (trend_frame db today u period_days) ->
  exists h, In h (trend_selected db today u period_days)
            /\ tf_consumption_date row = he_consumption_date h
            /\ total_daily_carbon row
                = (he_carbon_emissions h
                   + sum (map tr_carbon_emissions
                            (same_day_transport db u (he_consumption_date h))))%Qc.
Proof.
  unfold trend_frame. rewrite left_join_transport_rows, in_map_iff.
  intros [[h t] [<- Hin]]. apply order_by_In in Hin.
  apply in_map_iff in Hin. destruct Hin as [h' [[= <- <-] Hh]].
  exists h'. split; [exact Hh |]. split; [reflexivity |]. simpl.
  rewrite coalesce0_day_transport.
  apply filter_In in Hh. destruct Hh as [_ Hu].
  apply andb_true_iff in Hu. destruct Hu as [Hu _].
  apply Z.eqb_eq in Hu. now rewrite Hu.
Qed.

Lemma halves_app {A : Type} (df : list A) :
  previous_half df ++ recent_half df = df.
Proof. apply firstn_skipn. Qed.

Lemma half_le (n : nat) : (Nat.div n 2 <= n)%nat.
Proof.
  pose proof (Nat.div_mod_eq n 2). lia.
Qed.

Lemma previous_half_length {A : Type} (df : list A) :
  length (previous_half df) = Nat.div (length df) 2.
Proof.
  unfold previous_half. rewrite length_firstn.
  pose proof (half_le (length df)). lia.
Qed.

Lemma recent_half_length {A : Type} (df : list A) :
  length (recent_half df) = (length df - Nat.div (length df) 2)%nat.
Proof. unfold recent_half. apply length_skipn. Qed.

Lemma trend_of_frame_enough (df : list trend_row) (period_days : nat) :
  (period_days <= length df)%nat ->
  trend_of_frame df period_days
  = Some (trend_of_means
            (mean (map total_daily_carbon (recent_half df)))
            (mean (map total_daily_carbon (previous_half df)))).
Proof.
  intro H. unfold trend_of_frame.
  destruct (Nat.ltb_spec (length df) period_days); [lia | reflexivity].
Qed.

(** C4. When the fetched frame passes the row-count check, the two means
    are taken over the two contiguous halves by position of the
    date-ordered frame: the previous half is the first floor(n/2) rows, the
    recent half is the remaining n - floor(n/2) rows, so that an odd n
    leaves the extra row in the recent half. *)
Theorem trend_split_by_position
    (db : database) (today : date) (u : Z) (period_days : nat) :
  let df := trend_frame db today u period_days in
  let n := length df in
  (period_days <= n)%nat ->
  StronglySorted
    (fun a b => tf_consumption_date a <= tf_consumption_date b) df
  /\ previous_half df = firstn (Nat.div n 2) df
  /\ recent_half df = skipn (Nat.div n 2) df
  /\ previous_half df ++ recent_half df = df
  /\ length (previous_half df) = Nat.div n 2
  /\ length (recent_half df) = (n - Nat.div n 2)%nat
  /\ (Nat.odd n = true ->
       length (recent_half df) = S (length (previous_half df)))
  /\ (Nat.even n = true ->
       length (recent_half df) = length (previous_half df))
  /\ calculate_carbon_trends db today u period_days
      = Some (trend_of_means
                (mean (map total_daily_carbon (recent_half df)))
                (mean (map total_daily_carbon (previous_half df)))).
Proof.
  intros df n Hn.
  pose proof (Nat.div_mod_eq n 2) as Hdm.
  pose proof (Nat.mod_upper_bound n 2 ltac:(lia)) as Hmod.
  split; [apply trend_frame_sorted |].
  split; [reflexivity |]. split; [reflexivity |].
  split; [apply halves_app |].
  split; [apply previous_half_length |].
  split; [apply recent_half_length |].
  rewrite previous_half_length, recent_half_length. fold n.
  split; [| split].
  - intro Hodd. apply Nat.odd_spec in Hodd. destruct Hodd as [m Hm]. lia.
  - intro Heven. apply Nat.even_spec in Heven. destruct Heven as [m Hm]. lia.
  - unfold calculate_carbon_trends. now apply trend_of_frame_enough.
Qed.

Lemma trend_split_by_position_witness :
  let df := trend_frame Samples.ten_day_store 10 1 2 in
  length df = 5%nat
  /\ length (previous_half df) = 2%nat
  /\ length (recent_half df) = 3%nat.
Proof.
  intro df.
  assert (Hn : length df = 5%nat) by reflexivity.
  destruct (trend_split_by_position Samples.ten_day_store 10 1 2)
    as [_ [_ [_ [_ [Hprev [_ [Hodd _]]]]]]].
  - fold df. rewrite Hn. lia.
  - fold df in Hprev, Hodd. rewrite Hn in Hprev, Hodd.
    split; [exact Hn |]. split; [exact Hprev |].
    rewrite (Hodd eq_refl), Hprev. reflexivity.
Defined.

(** C6. With fewer fetched rows than [period_days] (the fetched rows being
    the user's home-energy rows of the last [2 * period_days] days, one
    frame row each), the result is [None], the insufficient-data outcome,
    and no trend is computed; so a 30-day period over 10 available rows
    gives [None]. *)
Theorem trend_insufficient_data
    (db : database) (today : date) (u : Z) (period_days : nat) :
  (length (trend_frame db today u period_days) < period_days)%nat ->
  calculate_carbon_trends db today u period_days = None
  /\ length (trend_frame db today u period_days)
     = length (trend_selected db today u period_days).
Proof.
  intro H. split; [| apply trend_frame_length].
  unfold calculate_carbon_trends, trend_of_frame.
  destruct (Nat.ltb_spec (length (trend_frame db today u period_days))
                         period_days); [reflexivity | lia].
Qed.

Lemma trend_insufficient_data_witness :
  length (trend_frame Samples.ten_day_store 10 1 30) = 10%nat
  /\ calculate_carbon_trends Samples.ten_day_store 10 1 30 = None.
Proof.
  split; [reflexivity |].
  apply (trend_insufficient_data Samples.ten_day_store 10 1 30).
  vm_compute. lia.
Defined.


Lemma inf_of_sign_scaled (r : Qc) :
  num_mul (inf_of_sign r) (Fin (Qc_of_Z 100)) = inf_of_sign r.
Proof. unfold inf_of_sign. destruct (r ?= 0)%Qc; reflexivity. Qed.

Lemma inf_of_sign_positive (r : Qc) :
  num_gtb (inf_of_sign r) (Fin 0%Qc) = Qcltb 0%Qc r.
Proof.
  unfold inf_of_sign. destruct (r ?= 0)%Qc eqn:E; simpl.
  - apply Qceq_alt in E. subst r. reflexivity.
  - apply Qclt_alt in E. destruct (Qcltb 0%Qc r) eqn:E'; [| reflexivity].
    apply Qcltb_lt in E'. exfalso.
    exact (Qclt_not_le _ _ E (Qclt_le_weak _ _ E')).
  - apply Qcgt_alt in E. symmetry. now apply Qcltb_lt.
Qed.

Lemma trend_of_means_zero_baseline (r : Qc) :
  trend_of_means (Fin r) (Fin 0%Qc)
  = {| recent_avg := Fin (Qc_round2 r);
       previous_avg := Fin 0%Qc;
       change_percent := inf_of_sign r;
       trend := if Qcltb 0%Qc r
                then "increasing"%string else "decreasing"%string |}.
Proof.
  unfold trend_of_means, num_sub, num_neg, num_add, num_div.
  replace (Qceqb 0%Qc 0%Qc) with true by reflexivity.
  replace (r + - 0)%Qc with r by ring.
  rewrite inf_of_sign_scaled, inf_of_sign_positive.
  replace (round2 (Fin 0%Qc)) with (Fin 0%Qc)
    by (simpl; f_equal; qc_compute).
  f_equal. unfold inf_of_sign. destruct (r ?= 0)%Qc; reflexivity.
Qed.

Lemma mean_Fin_nonempty (l : list Qc) (x : Qc) : mean l = Fin x -> l <> [].
Proof. destruct l; [discriminate | discriminate]. Qed.

Lemma mean_cases (l : list Qc) :
  (l = [] /\ mean l = NaN) \/ (l <> [] /\ mean l = Fin (avg l)).
Proof.
  destruct l; [left | right]; split; try reflexivity; discriminate.
Qed.

(** Closed equalities between values and reports of the numeric layer. *)
Ltac num_compute :=
  vm_compute;
  repeat match goal with
         | |- Some _ = Some _ => apply f_equal
         | |- Build_trend_report _ _ _ _ = Build_trend_report _ _ _ _ => f_equal
         | |- Fin _ = Fin _ => apply f_equal; apply Qc_is_canon; reflexivity
         | |- _ => reflexivity
         end.



(** The zero baseline is not detected: on the store where user 1 logged
    0, 0, 5, 5, with a 2-day period, the row-count check passes, the
    previous-half mean is exactly 0, and the result is an ordinary trend
    report whose [change_percent] is +infinity. *)
Lemma zero_baseline_returns_infinity :
  let df := trend_frame Samples.zero_baseline_store 4 1 2 in
  (2 <= length df)%nat
  /\ mean (map total_daily_carbon (previous_half df)) = Fin 0%Qc
  /\ calculate_carbon_trends Samples.zero_baseline_store 4 1 2
     = Some {| recent_avg := Fin (Qc_of_Z 5);
               previous_avg := Fin 0%Qc;
               change_percent := PInf;
               trend := "increasing" |}.
Proof.
  split; [vm_compute; lia |]. split; num_compute.
Qed.

(** C1, as the code has it.  With enough rows and a previous-half mean of
    exactly 0, [calculate_carbon_trends] performs the division all the
    same and returns an ordinary trend report: [previous_avg] is 0 and
    [change_percent] is +infinity with label "increasing" when the recent
    mean is positive, -infinity with "decreasing" when it is negative, and
    NaN with "decreasing" when it is 0 too.  Nothing is raised and no
    separate outcome is produced. *)
Theorem trend_zero_baseline
    (db : database) (today : date) (u : Z) (period_days : nat) :
  let df := trend_frame db today u period_days in
  (period_days <= length df)%nat ->
  mean (map total_daily_carbon (previous_half df)) = Fin 0%Qc ->
  exists r,
    mean (map total_daily_carbon (recent_half df)) = Fin r
    /\ calculate_carbon_trends db today u period_days
       = Some {| recent_avg := Fin (Qc_round2 r);
                 previous_avg := Fin 0%Qc;
                 change_percent :=
                   match (r ?= 0)%Qc with
                   | Gt => PInf
                   | Lt => NInf
                   | Eq => NaN
                   end;
                 trend :=
                   match (r ?= 0)%Qc with
                   | Gt => "increasing"%string
                   | _ => "decreasing"%string
                   end |}.
Proof.
  intros df Hn Hp.
  assert (Hrecent : map total_daily_carbon (recent_half df) <> []).
  { apply mean_Fin_nonempty in Hp.
    intro Hnil. apply Hp.
    apply (f_equal (@length Qc)) in Hnil.
    rewrite length_map, recent_half_length in Hnil.
    change (@length Qc []) with 0%nat in Hnil.
    apply length_zero_iff_nil.
    rewrite length_map, previous_half_length.
    pose proof (Nat.div_mod_eq (length df) 2).
    pose proof (Nat.mod_upper_bound (length df) 2 ltac:(lia)). lia. }
  destruct (mean_cases (map total_daily_carbon (recent_half df)))
    as [[Hnil _] | [_ Hr]]; [contradiction |].
  exists (avg (map total_daily_carbon (recent_half df))).
  split; [exact Hr |].
  unfold calculate_carbon_trends. fold df.
  rewrite (trend_of_frame_enough df period_days Hn), Hp, Hr.
  rewrite trend_of_means_zero_baseline.
  set (r := avg (map total_daily_carbon (recent_half df))).
  do 2 f_equal.
  destruct (r ?= 0)%Qc eqn:E.
  - apply Qceq_alt in E. rewrite E. reflexivity.
  - apply Qclt_alt in E. destruct (Qcltb 0%Qc r) eqn:E'; [| reflexivity].
    apply Qcltb_lt in E'. exfalso.
    exact (Qclt_not_le _ _ E (Qclt_le_weak _ _ E')).
  - apply Qcgt_alt in E. apply Qcltb_lt in E. now rewrite E.
Qed.

Lemma trend_zero_baseline_witness :
  exists r,
    mean (map total_daily_carbon
            (recent_half (trend_frame Samples.zero_baseline_store 4 1 2)))
    = Fin r
    /\ exists report,
         calculate_carbon_trends Samples.zero_baseline_store 4 1 2
         = Some report.
Proof.
  destruct (trend_zero_baseline Samples.zero_baseline_store 4 1 2)
    as [r [Hr Hcalc]].
  - vm_compute. lia.
  - num_compute.
  - exists r. split; [exact Hr |]. eexists. exact Hcalc.
Defined.

(* ================================================================== *)
(** * Suggestion Generator *)











(* ================================================================== *)
(** * Further facts about filtering and ordering *)

Lemma filter_filter_andb {A : Type} (f g : A -> bool) (l : list A) :
  filter f (filter g l) = filter (fun x => g x && f x) l.
Proof.
  induction l as [| x l IH]; simpl; [reflexivity |].
  destruct (g x); simpl; [destruct (f x) |]; now rewrite IH.
Qed.

Section FilterOrder.
Context {A : Type}.
Variable leb : A -> A -> bool.
Hypothesis leb_total : forall a b, leb a b = false -> leb b a = true.
Hypothesis leb_trans :
  forall a b c, leb a b = true -> leb b c = true -> leb a c = true.
Variable keep : A -> bool.

Lemma insert_sorted_first (x : A) (l : list A) :
  (forall y, In y l -> leb x y = true) -> insert_sorted leb x l = x :: l.
Proof.
  destruct l as [| y l]; simpl; [reflexivity |].
  intro H. now rewrite (H y (or_introl eq_refl)).
Qed.

Lemma filter_insert_sorted (x : A) (l : list A) :
  StronglySorted (fun a b => leb a b = true) l ->
  filter keep (insert_sorted leb x l)
  = if keep x then insert_sorted leb x (filter keep l) else filter keep l.
Proof.
  induction 1 as [| y l Hs IH Hall]; simpl.
  - destruct (keep x); reflexivity.
  - rewrite Forall_forall in Hall.
    destruct (leb x y) eqn:Exy; simpl.
    + destruct (keep x) eqn:Kx, (keep y) eqn:Ky; simpl;
        rewrite ?Exy; try reflexivity.
      symmetry. apply insert_sorted_first.
      intros z Hz. apply filter_In in Hz. destruct Hz as [Hz _].
      apply (leb_trans x y z Exy). now apply Hall.
    + rewrite IH.
      destruct (keep x) eqn:Kx, (keep y) eqn:Ky; simpl;
        rewrite ?Exy; reflexivity.
Qed.

(** Selecting rows after a stable [ORDER BY] gives what ordering the
    selected rows gives. *)
Lemma filter_order_by (l : list A) :
  filter keep (order_by leb l) = order_by leb (filter keep l).
Proof.
  induction l as [| x l IH]; simpl; [reflexivity |].
  rewrite filter_insert_sorted
    by (apply order_by_StronglySorted; assumption).
  rewrite IH. destruct (keep x); reflexivity.
Qed.

End FilterOrder.

(* ================================================================== *)
(** * How the operations of the analytics module relate *)

Lemma trend_frame_windowed
    (db : database) (today : date) (u : Z) (period_days : nat) :
  trend_frame db today u period_days
  = map trend_row_of_pattern
      (filter (fun r => date_sub_days today (period_days * 2)
                        <=? consumption_date r)
              (analyze_carbon_patterns db u)).
Proof.
  unfold trend_frame, analyze_carbon_patterns, trend_selected.
  rewrite !left_join_transport_rows.
  rewrite filter_map_swap.
  rewrite (filter_order_by
             (asc_by (fun p : home_energy_row * option Qc =>
                        he_consumption_date (fst p)))
             (asc_by_total _) (asc_by_trans _)).
  rewrite filter_map_swap, filter_filter_andb, map_map.
  apply map_ext. intros [h t]. reflexivity.
Qed.

Lemma filter_length_le {A : Type} (f : A -> bool) (l : list A) :
  (length (filter f l) <= length l)%nat.
Proof.
  induction l as [| x l IH]; simpl; [lia |].
  destruct (f x); simpl; lia.
Qed.

(** X1. The frame fetched by [calculate_carbon_trends] is the pattern frame
    of the user restricted to the dates on or after
    [today - 2 * period_days], in the same order, each row reduced to its
    date and its total emission; so the trend report is the one computed
    from the totals of these pattern rows, and the Trend Detector never
    sees more rows than the Pattern Analyzer returns. *)
Theorem trend_frame_is_windowed_patterns
    (db : database) (today : date) (u : Z) (period_days : nat) :
  let window :=
    filter (fun r => date_sub_days today (period_days * 2)
                     <=? consumption_date r)
           (analyze_carbon_patterns db u) in
  trend_frame db today u period_days = map trend_row_of_pattern window
  /\ map total_daily_carbon (trend_frame db today u period_days)
     = map total_emissions window
  /\ calculate_carbon_trends db today u period_days
     = trend_of_frame (map trend_row_of_pattern window) period_days
  /\ (length (trend_frame db today u period_days)
      <= length (analyze_carbon_patterns db u))%nat.
Proof.
  intro window. subst window.
  split; [apply trend_frame_windowed |]. split; [| split].
  - rewrite trend_frame_windowed, map_map. reflexivity.
  - unfold calculate_carbon_trends. now rewrite trend_frame_windowed.
  - rewrite trend_frame_windowed, length_map. apply filter_length_le.
Qed.

Lemma same_day_transport_own (db : database) (u : Z) (d : date) :
  same_day_transport db u d
  = filter (fun t => tr_activity_date t =? d) (trips_of db u).
Proof.
  unfold same_day_transport, trips_of. rewrite filter_filter_andb.
  apply filter_ext. intro t. apply andb_comm.
Qed.

Lemma analyze_carbon_patterns_own (db : database) (u : Z) :
  analyze_carbon_patterns db u
  = map pattern_of_fetched
      (order_by (asc_by (fun p => he_consumption_date (fst p)))
         (map (fun h =>
                 (h, match filter (fun t => tr_activity_date t
                                            =? he_consumption_date h)
                                  (trips_of db u) with
                     | [] => None
                     | ts => Some (sum (map tr_carbon_emissions ts))
                     end))
              (home_rows_of db u))).
Proof.
  unfold analyze_carbon_patterns. rewrite left_join_transport_rows.
  fold (home_rows_of db u). do 2 f_equal.
  apply map_ext_in. intros h Hh.
  apply filter_In in Hh. destruct Hh as [_ Hu]. apply Z.eqb_eq in Hu.
  unfold day_transport. now rewrite Hu, same_day_transport_own.
Qed.

(** X2. The operations read only the rows of the user they are called
    for: two stores with the same home-energy and transportation rows for
    a user give that user the same pattern frame, timeline, trend report
    and suggestions, whatever the rows of other users (although the
    transportation sub-query groups the trips of all users); and with the
    same activity rows for the user and the same categories, the same
    activity ranking. *)
Theorem analytics_read_own_rows_only (db1 db2 : database) (u : Z) :
  home_rows_of db1 u = home_rows_of db2 u ->
  trips_of db1 u = trips_of db2 u ->
  analyze_carbon_patterns db1 u = analyze_carbon_patterns db2 u
  /\ (forall today days,
        get_user_carbon_timeline db1 today u days
        = get_user_carbon_timeline db2 today u days)
  /\ (forall today period_days,
        calculate_carbon_trends db1 today u period_days
        = calculate_carbon_trends db2 today u period_days)
  /\ (activities_of db1 u = activities_of db2 u ->
      activity_categories db1 = activity_categories db2 ->
      (forall top_n,
         get_eco_heavy_activities db1 u top_n
         = get_eco_heavy_activities db2 u top_n)
      /\ forall strict,
           generate_optimization_suggestions strict db1 u
           = generate_optimization_suggestions strict db2 u).
Proof.
  intros Hhome Htrips.
  assert (Hpat : analyze_carbon_patterns db1 u = analyze_carbon_patterns db2 u).
  { rewrite !analyze_carbon_patterns_own. now rewrite Hhome, Htrips. }
  split; [exact Hpat |]. split; [| split].
  - intros today days. unfold get_user_carbon_timeline, timeline_selected.
    rewrite <- !(filter_filter_andb
                   (fun h => date_sub_days today days <=? he_consumption_date h)
                   (fun h => he_user_id h =? u)).
    fold (home_rows_of db1 u). fold (home_rows_of db2 u).
    now rewrite Hhome.
  - intros today period_days. unfold calculate_carbon_trends.
    now rewrite !trend_frame_windowed, Hpat.
  - intros Hact Hcat.
    assert (Heco : forall top_n,
               get_eco_heavy_activities db1 u top_n
               = get_eco_heavy_activities db2 u top_n).
    { intro top_n.
      unfold get_eco_heavy_activities, category_summaries, user_activities.
      fold (activities_of db1 u). fold (activities_of db2 u).
      now rewrite Hact, Hcat. }
    split; [exact Heco |].
    intro strict. unfold generate_optimization_suggestions.
    now rewrite Hpat.
Qed.

Lemma analytics_read_own_rows_only_witness :
  analyze_carbon_patterns crowded_store 1
  = analyze_carbon_patterns Samples.joined_store 1
  /\ calculate_carbon_trends crowded_store 6 1 1
     = calculate_carbon_trends Samples.joined_store 6 1 1.
Proof.
  destruct (analytics_read_own_rows_only crowded_store Samples.joined_store 1)
    as [Hpat [_ [Htrend _]]].
  - reflexivity.
  - reflexivity.
  - split; [exact Hpat | apply Htrend].
Defined.

(* ================================================================== *)
(** * Groups partition the rows *)

Lemma filter_split_Permutation {A : Type} (f : A -> bool) (l : list A) :
  Permutation (filter f l ++ filter (fun x => negb (f x)) l) l.
Proof.
  induction l as [| x l IH]; simpl; [constructor |].
  destruct (f x); simpl.
  - now constructor.
  - rewrite <- Permutation_middle. now constructor.
Qed.

Section GroupPartition.
Context {K V : Type}.
Variable eqb : K -> K -> bool.
Hypothesis eqb_eq : forall a b, eqb a b = true <-> a = b.
Variable key : V -> K.

Lemma groups_over_Permutation (ks : list K) :
  NoDup ks ->
  forall rows,
    (forall r, In r rows -> In (key r) ks) ->
    Permutation
      (concat (map (fun k => filter (fun r => eqb (key r) k) rows) ks))
      rows.
Proof.
  induction 1 as [| k ks Hnin Hnd IH]; intros rows Hin; simpl.
  - destruct rows as [| r rows]; [constructor |].
    destruct (Hin r (or_introl eq_refl)).
  - set (others := filter (fun r => negb (eqb (key r) k)) rows).
    rewrite (map_ext_in
               (fun k' => filter (fun r => eqb (key r) k') rows)
               (fun k' => filter (fun r => eqb (key r) k') others)).
    + rewrite (IH others).
      * apply filter_split_Permutation.
      * intros r Hr. apply filter_In in Hr. destruct Hr as [Hr Hk].
        destruct (Hin r Hr) as [Heq | Hks]; [| exact Hks].
        rewrite (proj2 (eqb_eq (key r) k) (eq_sym Heq)) in Hk.
        discriminate.
    + intros k' Hk'. unfold others. rewrite filter_filter_andb.
      apply filter_ext. intro r.
      destruct (eqb (key r) k') eqn:E1; [| now rewrite andb_false_r].
      apply eqb_eq in E1. subst k'.
      destruct (eqb (key r) k) eqn:E2; [| reflexivity].
      apply eqb_eq in E2. subst k. contradiction.
Qed.

(** [GROUP BY] puts every row in exactly one group. *)
Lemma group_by_Permutation (rows : list V) :
  Permutation (concat (map snd (group_by eqb key rows))) rows.
Proof.
  unfold group_by. rewrite map_map. simpl.
  apply groups_over_Permutation.
  - now apply NoDup_distinct.
  - intros r Hr. apply In_distinct; [assumption |]. now apply in_map.
Qed.

Lemma group_by_lengths (rows : list V) :
  list_sum (map (fun g => length (snd g)) (group_by eqb key rows))
  = length rows.
Proof.
  rewrite <- (Permutation_length (group_by_Permutation rows)).
  rewrite length_concat, map_map. reflexivity.
Qed.

End GroupPartition.

Lemma list_sum_Permutation (l1 l2 : list nat) :
  Permutation l1 l2 -> list_sum l1 = list_sum l2.
Proof. induction 1; simpl; lia. Qed.

Lemma Qc_of_nat_nonzero (n : nat) : (0 < n)%nat -> Qc_of_nat n <> 0%Qc.
Proof.
  intros Hn H. unfold Qc_of_nat, Qc_of_Z in H.
  apply Q2Qc_eq_iff in H. unfold Qeq in H. simpl in H. lia.
Qed.

(* ================================================================== *)
(** * Activity Ranker: what the ranking adds up to *)

(** The join keeps an activity row once per category row with its
    identifier: not at all when the identifier is unknown, and once when
    identifiers are unique. *)
Lemma user_activities_length (db : database) (u : Z) :
  NoDup (map ac_category_id (activity_categories db)) ->
  length (user_activities db u)
  = length (filter (fun a =>
                      existsb (fun c => da_category_id a =? ac_category_id c)
                              (activity_categories db))
                   (activities_of db u)).
Proof.
  intro Hnd. unfold user_activities. fold (activities_of db u).
  induction (activities_of db u) as [| a acts IH]; simpl; [reflexivity |].
  rewrite length_app, length_map, IH.
  assert (Hone :
    length (filter (fun c => da_category_id a =? ac_category_id c)
                   (activity_categories db))
    = if existsb (fun c => da_category_id a =? ac_category_id c)
                 (activity_categories db) then 1%nat else 0%nat).
  { clear IH. induction (activity_categories db) as [| c cs IHc]; simpl;
      [reflexivity |].
    simpl in Hnd. inversion Hnd as [| ? ? Hnin Hnd']; subst.
    destruct (da_category_id a =? ac_category_id c) eqn:E; simpl.
    - rewrite (IHc Hnd').
      destruct (existsb _ cs) eqn:Ex; [| reflexivity].
      apply existsb_exists in Ex. destruct Ex as [c' [Hc' E']].
      apply Z.eqb_eq in E, E'. exfalso. apply Hnin.
      rewrite <- E, E'. now apply in_map.
    - exact (IHc Hnd'). }
  rewrite Hone.
  destruct (existsb _ (activity_categories db)); simpl; lia.
Qed.

(** X3. Over the full ranking of a user, the occurrence counts add up to
    the number of joined activity rows of the user and the totals add up
    to the sum of their emissions (every joined row is counted in exactly
    one category); each category has at least one occurrence and its
    average emission times its count is its total; and, category
    identifiers being unique, the joined rows are the user's activity rows
    whose category identifier exists, each once: activities of an unknown
    category are left out of the ranking. *)
Theorem ranking_adds_up (db : database) (u : Z) :
  let full := get_eco_heavy_activities db u (length (user_activities db u)) in
  list_sum (map frequency full) = length (user_activities db u)
  /\ sum (map total_carbon full)
     = sum (map (fun r => da_carbon_emissions (snd r)) (user_activities db u))
  /\ (forall s, In s full ->
        (1 <= frequency s)%nat
        /\ (avg_carbon s * Qc_of_nat (frequency s))%Qc = total_carbon s)
  /\ (NoDup (map ac_category_id (activity_categories db)) ->
      list_sum (map frequency full)
      = length (filter (fun a =>
                          existsb (fun c => da_category_id a
                                            =? ac_category_id c)
                                  (activity_categories db))
                       (activities_of db u))).
Proof.
  intro full. subst full. rewrite full_ranking.
  assert (Hperm := order_by_Permutation by_total_desc (category_summaries db u)).
  assert (Hfreq : list_sum (map frequency
                              (order_by by_total_desc (category_summaries db u)))
                  = length (user_activities db u)).
  { rewrite (list_sum_Permutation _ _ (Permutation_map frequency Hperm)).
    unfold category_summaries. rewrite map_map. simpl.
    apply (group_by_lengths String.eqb String.eqb_eq). }
  split; [exact Hfreq |]. split; [| split].
  - rewrite (sum_Permutation _ _ (Permutation_map total_carbon Hperm)).
    unfold category_summaries. rewrite map_map. simpl.
    apply (sum_group_by String.eqb String.eqb_eq fst).
  - intros s Hs. apply order_by_In, category_summaries_In in Hs.
    destruct Hs as [Hs [r [Hr Hc]]].
    set (g := filter (fun r0 => String.eqb (fst r0) (category_name s))
                     (user_activities db u)) in *.
    assert (Hin : In r g).
    { apply filter_In. split; [exact Hr |].
      rewrite Hc. apply String.eqb_refl. }
    assert (Hlen : (1 <= length g)%nat).
    { destruct g; [destruct Hin | simpl; lia]. }
    rewrite Hs. simpl. split; [exact Hlen |].
    unfold avg. rewrite length_map. field.
    apply Qc_of_nat_nonzero. lia.
  - intro Hnd. rewrite Hfreq. now apply user_activities_length.
Qed.

Lemma ranking_adds_up_witness :
  list_sum (map frequency
              (get_eco_heavy_activities Samples.ranked_store 1
                 (length (user_activities Samples.ranked_store 1))))
  = 4%nat.
Proof.
  rewrite (proj2 (proj2 (proj2 (ranking_adds_up Samples.ranked_store 1)))).
  - reflexivity.
  - repeat constructor; simpl; intuition discriminate.
Defined.

(* ================================================================== *)
(** * Suggestion Generator: the peak months *)










(* ================================================================== *)
(** * Trend Detector: short frames *)

Lemma trend_of_means_no_baseline (r : num) :
  trend_of_means r NaN
  = {| recent_avg := round2 r;
       previous_avg := NaN;
       change_percent := NaN;
       trend := "decreasing" |}.
Proof. destruct r; reflexivity. Qed.

(** X5. [calculate_carbon_trends] returns [None] exactly when fewer rows
    than [period_days] are fetched; in particular a period of 0 days never
    gives [None].  When the check passes with at most one fetched row, the
    previous half is empty: the report then has NaN as previous average and
    as change, and the label "decreasing". *)
Theorem trend_short_frames
    (db : database) (today : date) (u : Z) (period_days : nat) :
  let df := trend_frame db today u period_days in
  (calculate_carbon_trends db today u period_days = None
   <-> (length df < period_days)%nat)
  /\ (period_days = 0%nat ->
      calculate_carbon_trends db today u period_days <> None)
  /\ ((period_days <= length df <= 1)%nat ->
      calculate_carbon_trends db today u period_days
      = Some {| recent_avg := round2 (mean (map total_daily_carbon df));
                previous_avg := NaN;
                change_percent := NaN;
                trend := "decreasing" |}).
Proof.
  intro df.
  assert (Hiff : calculate_carbon_trends db today u period_days = None
                 <-> (length df < period_days)%nat).
  { split.
    - intro Hnone.
      destruct (Nat.lt_ge_cases (length df) period_days) as [Hlt | Hge];
        [exact Hlt |].
      unfold calculate_carbon_trends in Hnone. fold df in Hnone.
      rewrite (trend_of_frame_enough df period_days Hge) in Hnone.
      discriminate Hnone.
    - intro Hlt. unfold calculate_carbon_trends, trend_of_frame. fold df.
      destruct (Nat.ltb_spec (length df) period_days); [reflexivity | lia]. }
  split; [exact Hiff |]. split.
  - intros Hzero Hnone. apply Hiff in Hnone. lia.
  - intros [Hge Hle]. unfold calculate_carbon_trends. fold df.
    rewrite (trend_of_frame_enough df period_days Hge).
    assert (Hprev : previous_half df = []).
    { unfold previous_half.
      destruct df as [| r0 [| r1 rest]]; simpl in *; [reflexivity .. | lia]. }
    assert (Hrec : recent_half df = df).
    { unfold recent_half.
      destruct df as [| r0 [| r1 rest]]; simpl in *; [reflexivity .. | lia]. }
    rewrite Hprev, Hrec. simpl (map total_daily_carbon []).
    change (mean []) with NaN.
    now rewrite trend_of_means_no_baseline.
Qed.

Lemma trend_short_frames_witness :
  length (trend_frame Samples.joined_store 6 1 0) = 1%nat
  /\ exists report,
       calculate_carbon_trends Samples.joined_store 6 1 0 = Some report
       /\ change_percent report = NaN
       /\ trend report = "decreasing"%string.
Proof.
  split; [reflexivity |].
  eexists. split.
  - apply (trend_short_frames Samples.joined_store 6 1 0).
    vm_compute. lia.
  - split; reflexivity.
Defined.

(* ================================================================== *)
(** * Pattern Analyzer: order and calendar features *)

Lemma day_of_march_year_range (d : date) : 0 <= day_of_march_year d <= 365.
Proof.
  unfold day_of_march_year. Z.to_euclidean_division_equations. lia.
Qed.

Lemma month_of_range (d : date) : 1 <= month_of d <= 12.
Proof.
  unfold month_of. pose proof (day_of_march_year_range d).
  destruct (Z.ltb_spec ((5 * day_of_march_year d + 2) / 153) 10);
    Z.to_euclidean_division_equations; lia.
Qed.

(** X6. The pattern frame of a user comes in ascending date order, with
    one row per home-energy row of the user, and every row carries a
    calendar month between 1 and 12 and a day of the week between 0 and
    6. *)
Theorem pattern_frame_ordered (db : database) (u : Z) :
  let out := analyze_carbon_patterns db u in
  StronglySorted (fun a b => consumption_date a <= consumption_date b) out
  /\ length out = length (home_rows_of db u)
  /\ forall r, In r out ->
       1 <= month r <= 12 /\ 0 <= day_of_week r <= 6.
Proof.
  intro out. subst out. split; [| split].
  - unfold analyze_carbon_patterns. apply StronglySorted_map. simpl.
    apply (order_by_date_sorted (fun p => he_consumption_date (fst p))).
  - apply analyze_carbon_patterns_length.
  - intros r Hr. apply analyze_carbon_patterns_In in Hr.
    destruct Hr as [h [_ [_ ->]]]. simpl. split.
    + apply month_of_range.
    + unfold Calendar.day_of_week.
      pose proof (Z.mod_pos_bound (he_consumption_date h + 3) 7). lia.
Qed.

(* ================================================================== *)
(** * IoT tracker: dictionaries *)

Section DictFacts.
Context {V : Type}.

Lemma dict_set_fresh (k : string) (v : V) (d : IoT.dict V) :
  ~ In k (IoT.keys d) -> IoT.dict_set k v d = d ++ [(k, v)].
Proof.
  induction d as [| [k' v'] d IH]; simpl; intro Hnin; [reflexivity |].
  destruct (String.eqb k' k) eqn:E.
  - apply String.eqb_eq in E. tauto.
  - rewrite IH by tauto. reflexivity.
Qed.

Lemma dict_get_set_other (k k' : string) (v : V) (d : IoT.dict V) :
  k <> k' -> IoT.dict_get k (IoT.dict_set k' v d) = IoT.dict_get k d.
Proof.
  intro Hne. induction d as [| [k0 v0] d IH]; simpl.
  - destruct (String.eqb k' k) eqn:E; [| reflexivity].
    apply String.eqb_eq in E. congruence.
  - destruct (String.eqb k0 k') eqn:E0; simpl.
    + apply String.eqb_eq in E0. subst k0.
      destruct (String.eqb k' k) eqn:E; [| reflexivity].
      apply String.eqb_eq in E. congruence.
    + destruct (String.eqb k0 k); [reflexivity | exact IH].
Qed.

Lemma dict_get_set_same (k : string) (v : V) (d : IoT.dict V) :
  IoT.dict_get k (IoT.dict_set k v d) = Some v.
Proof.
  induction d as [| [k0 v0] d IH]; simpl.
  - now rewrite String.eqb_refl.
  - destruct (String.eqb k0 k) eqn:E; simpl; rewrite E; [reflexivity | exact IH].
Qed.

Lemma dict_get_Some_In (k : string) (v : V) (d : IoT.dict V) :
  IoT.dict_get k d = Some v -> In (k, v) d.
Proof.
  induction d as [| [k0 v0] d IH]; simpl; [discriminate |].
  destruct (String.eqb k0 k) eqn:E.
  - apply String.eqb_eq in E. intros [= ->]. left. now subst.
  - intro H. right. now apply IH.
Qed.

Lemma dict_get_In (k : string) (v : V) (d : IoT.dict V) :
  NoDup (IoT.keys d) -> In (k, v) d -> IoT.dict_get k d = Some v.
Proof.
  induction d as [| [k0 v0] d IH]; simpl; intros Hnd Hin; [destruct Hin |].
  inversion Hnd as [| ? ? Hnin Hnd']; subst.
  destruct Hin as [[= -> ->] | Hin].
  - now rewrite String.eqb_refl.
  - destruct (String.eqb k0 k) eqn:E; [| now apply IH].
    apply String.eqb_eq in E. subst k0. exfalso. apply Hnin.
    unfold IoT.keys. change k with (fst (k, v)). now apply in_map.
Qed.

End DictFacts.

Lemma map_snd_combine_seq {B C : Type} (g : B -> C) (items : list B) (i : nat) :
  map (fun p => g (snd p)) (combine (seq i (length items)) items)
  = map g items.
Proof.
  revert i. induction items as [| x items IH]; intro i; simpl;
    [reflexivity | now rewrite IH].
Qed.

Lemma map_fst_combine_seq {B C : Type} (g : nat -> C) (items : list B) (i : nat) :
  map (fun p => g (fst p)) (combine (seq i (length items)) items)
  = map g (seq i (length items)).
Proof.
  revert i. induction items as [| x items IH]; intro i; simpl;
    [reflexivity | now rewrite IH].
Qed.

(* ================================================================== *)
(** * IoT tracker: the per-device footprint *)

(** With device names all different, as the keys of a dictionary are, the
    loop appends one entry per device. *)
Lemma footprint_loop_fresh
    (factors : IoT.carbon_factors) (now : nat -> Z)
    (items : IoT.dict (IoT.dict Qc)) :
  forall (i : nat) (acc : IoT.dict IoT.device_entry),
    NoDup (IoT.keys acc ++ IoT.keys items) ->
    IoT.footprint_loop factors now i items acc
    = acc
      ++ map (fun p =>
                (fst (snd p),
                 {| IoT.carbon_emissions :=
                      IoT.device_carbon factors (fst (snd p)) (snd (snd p));
                    IoT.readings := snd (snd p);
                    IoT.timestamp := now (fst p) |}))
             (combine (seq i (length items)) items).
Proof.
  induction items as [| [name rd] items IH]; intros i acc Hnd; simpl.
  - now rewrite app_nil_r.
  - rewrite IH.
    + rewrite dict_set_fresh.
      * rewrite <- app_assoc. reflexivity.
      * simpl in Hnd. apply NoDup_remove_2 in Hnd.
        intro Hin. apply Hnd. apply in_or_app. now left.
    + rewrite dict_set_fresh.
      * unfold IoT.keys in *. rewrite map_app, <- app_assoc. exact Hnd.
      * simpl in Hnd. apply NoDup_remove_2 in Hnd.
        intro Hin. apply Hnd. apply in_or_app. now left.
Qed.

Lemma calculate_device_carbon_footprint_entries
    (factors : IoT.carbon_factors) (now : nat -> Z)
    (device_data : IoT.dict (IoT.dict Qc)) :
  NoDup (IoT.keys device_data) ->
  IoT.calculate_device_carbon_footprint factors now device_data
  = map (fun p =>
           (fst (snd p),
            {| IoT.carbon_emissions :=
                 IoT.device_carbon factors (fst (snd p)) (snd (snd p));
               IoT.readings := snd (snd p);
               IoT.timestamp := now (fst p) |}))
        (combine (seq 0 (length device_data)) device_data).
Proof.
  intro Hnd. unfold IoT.calculate_device_carbon_footprint.
  now rewrite footprint_loop_fresh.
Qed.

(** X7. [calculate_device_carbon_footprint] returns one entry per device,
    under the same names and in the same order; each entry carries the
    device's readings unchanged, the emission computed from them, and the
    clock value read in its iteration; a device is found again under its
    name. *)
Theorem footprint_keeps_devices
    (factors : IoT.carbon_factors) (now : nat -> Z)
    (device_data : IoT.dict (IoT.dict Qc)) :
  let out := IoT.calculate_device_carbon_footprint factors now device_data in
  NoDup (IoT.keys device_data) ->
  IoT.keys out = IoT.keys device_data
  /\ map (fun item => IoT.readings (snd item)) out = map snd device_data
  /\ map (fun item => IoT.carbon_emissions (snd item)) out
     = map (fun item => IoT.device_carbon factors (fst item) (snd item))
           device_data
  /\ map (fun item => IoT.timestamp (snd item)) out
     = map now (seq 0 (length device_data))
  /\ forall name rd,
       In (name, rd) device_data ->
       exists e, IoT.dict_get name out = Some e
                 /\ IoT.readings e = rd
                 /\ IoT.carbon_emissions e = IoT.device_carbon factors name rd.
Proof.
  intros out Hnd. subst out.
  rewrite (calculate_device_carbon_footprint_entries factors now device_data Hnd).
  set (entry := fun p : nat * (string * IoT.dict Qc) =>
                  (fst (snd p),
                   {| IoT.carbon_emissions :=
                        IoT.device_carbon factors (fst (snd p)) (snd (snd p));
                      IoT.readings := snd (snd p);
                      IoT.timestamp := now (fst p) |})).
  assert (Hkeys : IoT.keys (map entry (combine (seq 0 (length device_data))
                                               device_data))
                  = IoT.keys device_data).
  { unfold IoT.keys. rewrite map_map. simpl.
    apply (map_snd_combine_seq fst). }
  split; [exact Hkeys |]. split; [| split; [| split]].
  - rewrite map_map. simpl. apply (map_snd_combine_seq snd).
  - rewrite map_map. simpl.
    apply (map_snd_combine_seq
             (fun item => IoT.device_carbon factors (fst item) (snd item))).
  - rewrite map_map. simpl. apply (map_fst_combine_seq now).
  - intros name rd Hin.
    assert (Hex : exists i,
               In (i, (name, rd))
                  (combine (seq 0 (length device_data)) device_data)).
    { clear Hkeys Hnd. generalize 0%nat.
      induction device_data as [| x l IH]; intro i; [destruct Hin |].
      simpl. destruct Hin as [-> | Hin].
      - exists i. now left.
      - destruct (IH Hin (S i)) as [j Hj]. exists j. now right. }
    destruct Hex as [i Hi].
    exists {| IoT.carbon_emissions := IoT.device_carbon factors name rd;
              IoT.readings := rd;
              IoT.timestamp := now i |}.
    split; [| split; reflexivity].
    apply dict_get_In; [rewrite Hkeys; exact Hnd |].
    apply in_map_iff. exists (i, (name, rd)). split; [reflexivity | exact Hi].
Qed.

Lemma footprint_keeps_devices_witness :
  IoT.keys (IoT.calculate_device_carbon_footprint IoT.default_carbon_factors
              (IoT.ticking 0) (IoT.simulate_iot_data IoT.low_draws 1))
  = ["smart_thermostat"; "smart_meter_electricity"; "smart_water_meter";
     "ev_charger"; "solar_panels"]%string.
Proof.
  apply (footprint_keeps_devices IoT.default_carbon_factors (IoT.ticking 0)
           (IoT.simulate_iot_data IoT.low_draws 1)).
  repeat constructor; simpl; intuition discriminate.
Defined.

(** Inequalities between rationals in canonical form, read as inequalities
    between fractions. *)
Ltac qc_to_q :=
  unfold IoT.between, Qcle, Qclt, Qcminus, Qcplus, Qcmult, Qcopp,
    dec, Qc_of_Z in *;
  cbn [this Q2Qc] in *;
  repeat match goal with
         | H : context [Qred ?q] |- _ => rewrite (Qred_correct q) in H
         | |- context [Qred ?q] => rewrite (Qred_correct q)
         end;
  unfold inject_Z in *.

(** X8. The emission of a device counts at most one consumption reading:
    with [energy_consumed] present, adding or changing [daily_consumption]
    or [daily_usage] changes nothing, and with [daily_consumption]
    present [daily_usage] changes nothing; a reading under any other name
    than the four recognised ones is ignored; the gas factor is never
    used; and a device with none of the four readings emits 0. *)
Theorem device_carbon_counts_one_reading
    (factors : IoT.carbon_factors) (name : string) (rd : IoT.dict Qc) :
  (forall v x,
      IoT.dict_get "energy_consumed" rd = Some v ->
      IoT.device_carbon factors name (IoT.dict_set "daily_consumption" x rd)
      = IoT.device_carbon factors name rd
      /\ IoT.device_carbon factors name (IoT.dict_set "daily_usage" x rd)
         = IoT.device_carbon factors name rd)
  /\ (forall v x,
        IoT.dict_get "daily_consumption" rd = Some v ->
        IoT.device_carbon factors name (IoT.dict_set "daily_usage" x rd)
        = IoT.device_carbon factors name rd)
  /\ (forall k x,
        ~ IoT.recognised_reading k ->
        IoT.device_carbon factors name (IoT.dict_set k x rd)
        = IoT.device_carbon factors name rd)
  /\ (forall g,
        IoT.device_carbon
          {| IoT.electricity := IoT.electricity factors;
             IoT.gas := g;
             IoT.water := IoT.water factors |} name rd
        = IoT.device_carbon factors name rd)
  /\ (IoT.dict_get "energy_consumed" rd = None ->
      IoT.dict_get "daily_consumption" rd = None ->
      IoT.dict_get "daily_usage" rd = None ->
      IoT.dict_get "daily_generation" rd = None ->
      IoT.device_carbon factors name rd = 0%Qc).
Proof.
  split; [| split; [| split; [| split]]].
  - intros v x Hv. unfold IoT.device_carbon.
    rewrite (dict_get_set_other "energy_consumed" "daily_consumption")
      by discriminate.
    rewrite (dict_get_set_other "daily_generation" "daily_consumption")
      by discriminate.
    rewrite (dict_get_set_other "energy_consumed" "daily_usage")
      by discriminate.
    rewrite (dict_get_set_other "daily_generation" "daily_usage")
      by discriminate.
    rewrite Hv. split; reflexivity.
  - intros v x Hv. unfold IoT.device_carbon.
    rewrite (dict_get_set_other "energy_consumed" "daily_usage")
      by discriminate.
    rewrite (dict_get_set_other "daily_consumption" "daily_usage")
      by discriminate.
    rewrite (dict_get_set_other "daily_generation" "daily_usage")
      by discriminate.
    rewrite Hv. reflexivity.
  - intros k x Hk. unfold IoT.device_carbon, IoT.recognised_reading in *.
    rewrite !dict_get_set_other by (intro; subst; tauto). reflexivity.
  - intro g. reflexivity.
  - intros H1 H2 H3 H4. unfold IoT.device_carbon.
    now rewrite H1, H2, H3, H4.
Qed.

Lemma device_carbon_counts_one_reading_witness :
  IoT.device_carbon IoT.default_carbon_factors "heat_pump"
    (IoT.dict_set "daily_consumption" (Qc_of_Z 40) IoT.heat_pump_readings)
  = IoT.device_carbon IoT.default_carbon_factors "heat_pump"
      IoT.heat_pump_readings.
Proof.
  apply (proj1 (device_carbon_counts_one_reading IoT.default_carbon_factors
                  "heat_pump" IoT.heat_pump_readings) (Qc_of_Z 2)).
  reflexivity.
Defined.

Lemma dict_get_nonneg (k : string) (v : Qc) (rd : IoT.dict Qc) :
  Forall (fun kv => (0 <= snd kv)%Qc) rd ->
  IoT.dict_get k rd = Some v -> (0 <= v)%Qc.
Proof.
  intros Hall Hget. apply dict_get_Some_In in Hget.
  rewrite Forall_forall in Hall. exact (Hall _ Hget).
Qed.

Lemma Qc_scaled_nonneg (v f : Qc) :
  (0 <= v)%Qc -> (0 <= f)%Qc -> (0 <= 0 + v * f)%Qc.
Proof. intros Hv Hf. qc_to_q. nra. Qed.

(** X9. With non-negative factors and readings, only a solar device can
    have a negative emission: a device whose name does not contain
    "solar", or that reports no [daily_generation], never emits less than
    0, and a negative emission comes with a positive [daily_generation]
    on a device whose name contains "solar". *)
Theorem only_solar_devices_save
    (factors : IoT.carbon_factors) (name : string) (rd : IoT.dict Qc) :
  (0 <= IoT.electricity factors)%Qc ->
  (0 <= IoT.water factors)%Qc ->
  Forall (fun kv => (0 <= snd kv)%Qc) rd ->
  (IoT.contains "solar" name = false
   \/ IoT.dict_get "daily_generation" rd = None ->
   (0 <= IoT.device_carbon factors name rd)%Qc)
  /\ ((IoT.device_carbon factors name rd < 0)%Qc ->
      IoT.contains "solar" name = true
      /\ exists g, IoT.dict_get "daily_generation" rd = Some g
                   /\ (0 < g)%Qc).
Proof.
  intros He Hw Hall.
  set (base :=
         match IoT.dict_get "energy_consumed" rd with
         | Some v => (0 + v * IoT.electricity factors)%Qc
         | None =>
             match IoT.dict_get "daily_consumption" rd with
             | Some v => (0 + v * IoT.electricity factors)%Qc
             | None =>
                 match IoT.dict_get "daily_usage" rd with
                 | Some v =>
                     if IoT.contains "water" name
                     then (0 + v * IoT.water factors)%Qc
                     else 0%Qc
                 | None => 0%Qc
                 end
             end
         end).
  assert (Hbase : (0 <= base)%Qc).
  { subst base.
    destruct (IoT.dict_get "energy_consumed" rd) as [v |] eqn:E1.
    { apply Qc_scaled_nonneg; [exact (dict_get_nonneg _ _ _ Hall E1) | exact He]. }
    destruct (IoT.dict_get "daily_consumption" rd) as [v |] eqn:E2.
    { apply Qc_scaled_nonneg; [exact (dict_get_nonneg _ _ _ Hall E2) | exact He]. }
    destruct (IoT.dict_get "daily_usage" rd) as [v |] eqn:E3;
      [| apply Qcle_refl].
    destruct (IoT.contains "water" name); [| apply Qcle_refl].
    apply Qc_scaled_nonneg; [exact (dict_get_nonneg _ _ _ Hall E3) | exact Hw]. }
  assert (Hshape :
    IoT.device_carbon factors name rd
    = match IoT.dict_get "daily_generation" rd with
      | Some g => if IoT.contains "solar" name
                  then (base - g * IoT.electricity factors)%Qc else base
      | None => base
      end) by reflexivity.
  rewrite Hshape. clearbody base. split.
  - intros [Hsolar | Hgen].
    + rewrite Hsolar. destruct (IoT.dict_get "daily_generation" rd); exact Hbase.
    + rewrite Hgen. exact Hbase.
  - intro Hneg.
    destruct (IoT.dict_get "daily_generation" rd) as [g |] eqn:Eg.
    + destruct (IoT.contains "solar" name).
      * split; [reflexivity |]. exists g. split; [reflexivity |].
        pose proof (dict_get_nonneg _ _ _ Hall Eg) as Hg.
        destruct (Qcle_lt_or_eq _ _ Hg) as [Hpos | Hzero]; [exact Hpos |].
        exfalso. subst g. apply (Qclt_not_le _ _ Hneg).
        replace (base - 0 * IoT.electricity factors)%Qc with base by ring.
        exact Hbase.
      * exfalso. exact (Qclt_not_le _ _ Hneg Hbase).
    + exfalso. exact (Qclt_not_le _ _ Hneg Hbase).
Qed.

Lemma only_solar_devices_save_witness :
  IoT.contains "solar" "solar_panels" = true
  /\ exists g,
       IoT.dict_get "daily_generation"
         [("current_generation"%string, 0%Qc);
          ("daily_generation"%string, Qc_of_Z 10)] = Some g
       /\ (0 < g)%Qc.
Proof.
  apply (only_solar_devices_save IoT.default_carbon_factors "solar_panels"
           [("current_generation"%string, 0%Qc);
            ("daily_generation"%string, Qc_of_Z 10)]).
  - vm_compute. discriminate.
  - vm_compute. discriminate.
  - repeat constructor; vm_compute; discriminate.
  - vm_compute. reflexivity.
Defined.

(* ================================================================== *)
(** * IoT tracker: the real-time report *)

Lemma simulated_names_distinct (draws : IoT.iot_draws) (user_id : Z) :
  NoDup (IoT.keys (IoT.simulate_iot_data draws user_id)).
Proof. repeat constructor; simpl; intuition discriminate. Qed.





(* ================================================================== *)
(** * IoT tracker: what is stored *)






(** X12. After [get_real_time_carbon_data] the table holds its former rows
    followed by five new ones, of types thermostat, meter, water, charger
    and panels; only the thermostat row stores an energy value (its
    [energy_consumed] reading): the rows of the meter, the water meter,
    the charger and the solar panels store 0. *)
Theorem real_time_rows_stored
    (factors : IoT.carbon_factors) (draws : IoT.iot_draws) (now : nat -> Z)
    (table : list IoT.iot_row) (user_id : Z) :
  snd (IoT.get_real_time_carbon_data factors draws now table user_id)
  = table
    ++ [ {| IoT.ir_user_id := user_id;
            IoT.ir_device_type := "thermostat";
            IoT.ir_device_name := "smart_thermostat";
            IoT.ir_energy_consumption := IoT.energy_consumed draws;
            IoT.ir_timestamp := now 0%nat |};
         {| IoT.ir_user_id := user_id;
            IoT.ir_device_type := "meter";
            IoT.ir_device_name := "smart_meter_electricity";
            IoT.ir_energy_consumption := 0%Qc;
            IoT.ir_timestamp := now 1%nat |};
         {| IoT.ir_user_id := user_id;
            IoT.ir_device_type := "water";
            IoT.ir_device_name := "smart_water_meter";
            IoT.ir_energy_consumption := 0%Qc;
            IoT.ir_timestamp := now 2%nat |};
         {| IoT.ir_user_id := user_id;
            IoT.ir_device_type := "charger";
            IoT.ir_device_name := "ev_charger";
            IoT.ir_energy_consumption := 0%Qc;
            IoT.ir_timestamp := now 3%nat |};
         {| IoT.ir_user_id := user_id;
            IoT.ir_device_type := "panels";
            IoT.ir_device_name := "solar_panels";
            IoT.ir_energy_consumption := 0%Qc;
            IoT.ir_timestamp := now 4%nat |} ].
Proof.
  unfold IoT.get_real_time_carbon_data. cbn [snd].
  rewrite calculate_device_carbon_footprint_entries
    by apply simulated_names_distinct.
  reflexivity.
Qed.


(* ================================================================== *)
(** * Further list facts *)

Lemma flat_map_singleton {A B : Type} (f : A -> B) (l : list A) :
  flat_map (fun x => [f x]) l = map f l.
Proof. induction l as [| x l IH]; simpl; [reflexivity | now rewrite IH]. Qed.

Lemma filter_flat_map {A B : Type} (p : B -> bool) (f : A -> list B)
    (l : list A) :
  filter p (flat_map f l) = flat_map (fun x => filter p (f x)) l.
Proof.
  induction l as [| x l IH]; simpl; [reflexivity |].
  now rewrite filter_app, IH.
Qed.

Lemma filter_all {A : Type} (p : A -> bool) (l : list A) :
  (forall x, In x l -> p x = true) -> filter p l = l.
Proof.
  induction l as [| x l IH]; simpl; intro H; [reflexivity |].
  rewrite (H x (or_introl eq_refl)), IH; [reflexivity |].
  intros y Hy. apply H. now right.
Qed.

Lemma filter_none {A : Type} (p : A -> bool) (l : list A) :
  (forall x, In x l -> p x = false) -> filter p l = [].
Proof.
  induction l as [| x l IH]; simpl; intro H; [reflexivity |].
  rewrite (H x (or_introl eq_refl)). apply IH.
  intros y Hy. apply H. now right.
Qed.

Lemma flat_map_nil {A B : Type} (f : A -> list B) (l : list A) :
  (forall x, In x l -> f x = []) -> flat_map f l = [].
Proof.
  induction l as [| x l IH]; simpl; intro H; [reflexivity |].
  rewrite (H x (or_introl eq_refl)). apply IH.
  intros y Hy. apply H. now right.
Qed.

(** Picking the entry of one index out of a run of indices. *)
Lemma flat_map_pick {B : Type} (j : nat) (b : nat -> bool) (g : nat -> B)
    (n : nat) :
  forall a,
    flat_map (fun i => if (i =? j)%nat && b i then [g i] else []) (seq a n)
    = if (a <=? j)%nat && (j <? a + n)%nat && b j then [g j] else [].
Proof.
  induction n as [| n IH]; intro a.
  - cbn [seq flat_map].
    destruct (Nat.leb_spec a j), (Nat.ltb_spec j (a + 0)); cbn;
      try reflexivity; lia.
  - cbn [seq flat_map]. rewrite IH.
    destruct (Nat.eqb_spec a j) as [Heq | Hne].
    + subst a.
      destruct (Nat.leb_spec (S j) j), (Nat.leb_spec j j),
        (Nat.ltb_spec j (j + S n)), (b j); cbn; try reflexivity; lia.
    + destruct (Nat.leb_spec (S a) j), (Nat.leb_spec a j),
        (Nat.ltb_spec j (S a + n)), (Nat.ltb_spec j (a + S n)), (b j);
        cbn; try reflexivity; lia.
Qed.


Section Singletons.
Context {K V : Type}.
Variable eqb : K -> K -> bool.
Hypothesis eqb_eq : forall a b, eqb a b = true <-> a = b.
Variable key : V -> K.



End Singletons.

(* ================================================================== *)
(** * Database setup: the seeded store *)


Lemma seeded_homes (r : Setup.seed_draws) (today : date) :
  Setup.homes (Setup.create_carbon_database r today)
  = map (Setup.home_of r today 1) (seq 0 365)
    ++ map (Setup.home_of r today 2) (seq 0 365)
    ++ map (Setup.home_of r today 3) (seq 0 365).
Proof.
  unfold Setup.create_carbon_database, Setup.over_days, Setup.user_ids.
  cbn [Setup.homes flat_map]. rewrite !flat_map_singleton.
  now rewrite app_nil_r.
Qed.


Lemma seeded_user (u : Z) :
  In u Setup.user_ids -> existsb (Z.eqb u) Setup.user_ids = true.
Proof.
  intro H. apply existsb_exists. exists u. split; [exact H | apply Z.eqb_refl].
Qed.





(** ** The seeded rows through the queries of the analytics *)

Lemma filter_test_all {B : Type} (p : B -> bool) (l : list B) (c : bool) :
  (forall x, In x l -> p x = c) -> filter p l = if c then l else [].
Proof.
  intro H. destruct c; [now apply filter_all | now apply filter_none].
Qed.





Lemma seeded_trips_of (r : Setup.seed_draws) (today : date) (u : Z) :
  trips_of (Setup.analytics_view (Setup.create_carbon_database r today)) u
  = if existsb (Z.eqb u) Setup.user_ids
    then map Setup.trip_base
           (flat_map (fun day => if Setup.takes_transport r u day
                                 then [Setup.trip_of r today u day] else [])
                     (seq 0 365))
    else [].
Proof.
  unfold trips_of, Setup.analytics_view. cbn [transportation].
  unfold Setup.create_carbon_database, Setup.over_days, Setup.user_ids.
  cbn [Setup.trips flat_map]. rewrite app_nil_r, !map_app, !filter_app.
  assert (Hk : forall k,
             filter (fun t => tr_user_id t =? u)
               (map Setup.trip_base
                  (flat_map (fun day => if Setup.takes_transport r k day
                                        then [Setup.trip_of r today k day]
                                        else [])
                            (seq 0 365)))
             = if k =? u
               then map Setup.trip_base
                      (flat_map (fun day => if Setup.takes_transport r k day
                                            then [Setup.trip_of r today k day]
                                            else [])
                                (seq 0 365))
               else []).
  { intro k. apply filter_test_all. intros t Ht.
    apply in_map_iff in Ht. destruct Ht as [t' [<- Ht']].
    apply in_flat_map in Ht'. destruct Ht' as [day [_ Ht']].
    destruct (Setup.takes_transport r k day); [| destruct Ht'].
    destruct Ht' as [<- | []]. reflexivity. }
  rewrite !Hk. unfold Setup.user_ids. cbn [existsb].
  destruct (Z.eqb_spec 1 u) as [<- | H1].
  { change (2 =? 1) with false. change (3 =? 1) with false.
    cbn iota. rewrite ?app_nil_r. reflexivity. }
  destruct (Z.eqb_spec 2 u) as [<- | H2].
  { change (3 =? 2) with false. change (2 =? 1) with false.
    cbn iota. rewrite ?app_nil_r. reflexivity. }
  destruct (Z.eqb_spec 3 u) as [<- | H3].
  { change (3 =? 1) with false. change (3 =? 2) with false.
    cbn iota. rewrite ?app_nil_r. reflexivity. }
  rewrite (proj2 (Z.eqb_neq u 1)), (proj2 (Z.eqb_neq u 2)),
    (proj2 (Z.eqb_neq u 3)) by congruence.
  reflexivity.
Qed.

Lemma seeded_same_day_transport
    (r : Setup.seed_draws) (today : date) (u : Z) (day : nat) :
  In u Setup.user_ids -> (day < 365)%nat ->
  same_day_transport
    (Setup.analytics_view (Setup.create_carbon_database r today)) u
    (Setup.current_date today day)
  = if Setup.takes_transport r u day
    then [Setup.trip_base (Setup.trip_of r today u day)] else [].
Proof.
  intros Hu Hday.
  rewrite same_day_transport_own, seeded_trips_of, (seeded_user u Hu).
  rewrite filter_map_swap, filter_flat_map.
  rewrite (flat_map_ext _
             (fun i => if (i =? day)%nat && Setup.takes_transport r u i
                       then [Setup.trip_of r today u i] else [])).
  - rewrite flat_map_pick.
    destruct (Nat.leb_spec 0 day), (Nat.ltb_spec day (0 + 365)); try lia.
    cbn [andb]. now destruct (Setup.takes_transport r u day).
  - intro i. destruct (Setup.takes_transport r u i);
      [| now rewrite andb_false_r].
    cbn [filter Setup.trip_of Setup.trip_base tr_activity_date].
    unfold Setup.current_date.
    destruct (Nat.eqb_spec i day), (Z.eqb_spec (today - 365 + Z.of_nat i)
                                               (today - 365 + Z.of_nat day));
      try reflexivity; lia.
Qed.



(** ** Bounds on sums and means *)





(** ** Ranges of the seeded emissions *)

Lemma trip_emission_range
    (r : Setup.seed_draws) (today : date) (u : Z) (day : nat) :
  Setup.drawn_in_range r ->
  (dec 205 1000
   <= tr_carbon_emissions (Setup.trip_base (Setup.trip_of r today u day)))%Qc
  /\ (tr_carbon_emissions (Setup.trip_base (Setup.trip_of r today u day))
      <= dec 855 100)%Qc.
Proof.
  intro Hr. destruct (Hr u day) as [_ [_ [_ [[Hd1 Hd2] _]]]]. clear Hr.
  cbn [Setup.trip_of Setup.trip_base tr_carbon_emissions].
  destruct (Setup.mode r u day); cbn [Setup.mode_factor];
    split; qc_to_q; lra.
Qed.


(** ** Trend, timeline and trips of a seeded user *)








Lemma seeded_trips_In (r : Setup.seed_draws) (today : date)
    (t : Setup.trip_row) :
  In t (Setup.trips (Setup.create_carbon_database r today)) ->
  exists u day,
    In u Setup.user_ids /\ (day < 365)%nat
    /\ Setup.takes_transport r u day = true
    /\ t = Setup.trip_of r today u day.
Proof.
  unfold Setup.create_carbon_database, Setup.over_days. cbn [Setup.trips].
  intro H. apply in_flat_map in H. destruct H as [u [Hu H]].
  apply in_flat_map in H. destruct H as [day [Hday H]].
  apply in_seq in Hday. exists u, day.
  destruct (Setup.takes_transport r u day); [| destruct H].
  destruct H as [<- | []]. repeat split; [exact Hu | lia].
Qed.

(** X16. The seeded trips.  Every stored trip belongs to user 1, 2 or 3
    and to one of the 365 days before [today]; its mode, fuel type and
    emission are "Car Petrol", "Petrol", distance x 0.171, or "Car Diesel",
    "Diesel", distance x 0.164, or "Public Transport", "Electric",
    distance x 0.041; it is the only trip of its user on its day; and
    with values drawn within their ranges its distance lies between 5 and
    50 and its emission between 0.205 and 8.55. *)
Theorem seeded_trips (r : Setup.seed_draws) (today : date)
    (t : Setup.trip_row) :
  In t (Setup.trips (Setup.create_carbon_database r today)) ->
  let base := Setup.trip_base t in
  In (tr_user_id base) Setup.user_ids
  /\ today - 365 <= tr_activity_date base <= today - 1
  /\ ((Setup.trip_transport_mode t = "Car Petrol"%string
       /\ Setup.trip_fuel_type t = "Petrol"%string
       /\ tr_carbon_emissions base
          = (Setup.trip_distance t * dec 171 1000)%Qc)
      \/ (Setup.trip_transport_mode t = "Car Diesel"%string
          /\ Setup.trip_fuel_type t = "Diesel"%string
          /\ tr_carbon_emissions base
             = (Setup.trip_distance t * dec 164 1000)%Qc)
      \/ (Setup.trip_transport_mode t = "Public Transport"%string
          /\ Setup.trip_fuel_type t = "Electric"%string
          /\ tr_carbon_emissions base
             = (Setup.trip_distance t * dec 41 1000)%Qc))
  /\ same_day_transport
       (Setup.analytics_view (Setup.create_carbon_database r today))
       (tr_user_id base) (tr_activity_date base)
     = [base]
  /\ (Setup.drawn_in_range r ->
      ((Qc_of_Z 5 <= Setup.trip_distance t)%Qc
       /\ (Setup.trip_distance t <= Qc_of_Z 50)%Qc)
      /\ (dec 205 1000 <= tr_carbon_emissions base)%Qc
      /\ (tr_carbon_emissions base <= dec 855 100)%Qc).
Proof.
  intros Hin base. subst base.
  destruct (seeded_trips_In r today t Hin) as [u [day [Hu [Hday [Htakes ->]]]]].
  split; [exact Hu |]. split.
  { cbn [Setup.trip_of Setup.trip_base tr_activity_date].
    unfold Setup.current_date. lia. }
  split.
  { cbn [Setup.trip_of Setup.trip_base Setup.trip_transport_mode
         Setup.trip_fuel_type Setup.trip_distance tr_carbon_emissions].
    destruct (Setup.mode r u day);
      [left | right; left | right; right]; repeat split; reflexivity. }
  split.
  { change (tr_user_id (Setup.trip_base (Setup.trip_of r today u day)))
      with u.
    change (tr_activity_date (Setup.trip_base (Setup.trip_of r today u day)))
      with (Setup.current_date today day).
    rewrite seeded_same_day_transport by assumption.
    now rewrite Htakes. }
  intro Hr. split.
  - destruct (Hr u day) as [_ [_ [_ [Hd _]]]]. exact Hd.
  - apply (trip_emission_range r today u day Hr).
Qed.

Lemma seeded_trips_witness :
  In (tr_user_id (Setup.trip_base (Setup.trip_of Setup.low_draws 1000 1 0)))
     Setup.user_ids.
Proof.
  apply (seeded_trips Setup.low_draws 1000
           (Setup.trip_of Setup.low_draws 1000 1 0)).
  unfold Setup.create_carbon_database, Setup.over_days. cbn [Setup.trips].
  apply in_flat_map. exists 1. split; [left; reflexivity |].
  apply in_flat_map. exists 0%nat. split; [apply in_seq; lia |].
  left. reflexivity.
Defined.

(** ** The activity ranking of a seeded user *)

Lemma flat_map_flat_map {A B C : Type} (g : B -> list C) (f : A -> list B)
    (l : list A) :
  flat_map g (flat_map f l) = flat_map (fun x => flat_map g (f x)) l.
Proof.
  induction l as [| x l IH]; simpl; [reflexivity |].
  now rewrite flat_map_app, IH.
Qed.

Lemma flat_map_of_map {A B C : Type} (g : B -> list C) (f : A -> B)
    (l : list A) :
  flat_map g (map f l) = flat_map (fun x => g (f x)) l.
Proof. induction l as [| x l IH]; simpl; [reflexivity | now rewrite IH]. Qed.


(** The three activities logged for a user on a day, joined with their
    category names. *)
Lemma seeded_day_activities
    (r : Setup.seed_draws) (today : date) (u : Z) (day : nat) :
  flat_map (fun c => Setup.option_list (Setup.activity_of r today u day c))
           [1; 2; 3]
  = [ {| Setup.act_row := Setup.seeded_activity r u day 1 (dec 233 1000);
         Setup.act_activity_date := Setup.current_date today day |};
      {| Setup.act_row := Setup.seeded_activity r u day 2 (dec 184 1000);
         Setup.act_activity_date := Setup.current_date today day |};
      {| Setup.act_row := Setup.seeded_activity r u day 3 (dec 3 10000);
         Setup.act_activity_date := Setup.current_date today day |} ].
Proof. reflexivity. Qed.



Section DistinctPrefix.
Context {K : Type}.
Variable eqb : K -> K -> bool.
Hypothesis eqb_eq : forall a b, eqb a b = true <-> a = b.



End DistinctPrefix.






(** ** Row counts and references of the seeded store *)

Lemma length_flat_map_const {A B : Type} (f : A -> list B) (k : nat)
    (l : list A) :
  (forall x, length (f x) = k) -> length (flat_map f l) = (k * length l)%nat.
Proof.
  intro H. induction l as [| x l IH]; simpl; [lia |].
  rewrite length_app, H, IH. lia.
Qed.

Lemma length_flat_map_le {A B : Type} (f : A -> list B) (k : nat)
    (l : list A) :
  (forall x, (length (f x) <= k)%nat) ->
  (length (flat_map f l) <= k * length l)%nat.
Proof.
  intro H. induction l as [| x l IH]; simpl; [lia |].
  rewrite length_app. pose proof (H x). lia.
Qed.

Lemma seeded_activities_In (r : Setup.seed_draws) (today : date)
    (a : Setup.activity_row) :
  In a (Setup.activities (Setup.create_carbon_database r today)) ->
  exists u day c f,
    In u Setup.user_ids /\ (day < 365)%nat
    /\ In (c, f) [(1, dec 233 1000); (2, dec 184 1000); (3, dec 3 10000)]
    /\ a = {| Setup.act_row := Setup.seeded_activity r u day c f;
              Setup.act_activity_date := Setup.current_date today day |}.
Proof.
  unfold Setup.create_carbon_database, Setup.over_days.
  cbn [Setup.activities]. intro H.
  apply in_flat_map in H. destruct H as [u [Hu H]].
  apply in_flat_map in H. destruct H as [day [Hday H]].
  apply in_seq in Hday. rewrite seeded_day_activities in H.
  destruct H as [<- | [<- | [<- | []]]].
  - exists u, day, 1, (dec 233 1000). cbn [In]. intuition lia.
  - exists u, day, 2, (dec 184 1000). cbn [In]. intuition lia.
  - exists u, day, 3, (dec 3 10000). cbn [In]. intuition lia.
Qed.

(** X18. What [create_carbon_database] leaves in a new database, whatever
    the random values: users numbered 1 to 3 and categories numbered 1 to
    12; 1095 home-energy rows, 3285 activity rows and at most 1095 trips;
    every home-energy row, trip and activity belongs to a stored user;
    and every activity is of category 1, 2 or 3, a stored category whose
    carbon factor times the quantity is the activity's emission. *)
Theorem seeded_store_integrity (r : Setup.seed_draws) (today : date) :
  let s := Setup.create_carbon_database r today in
  map Setup.user_id (Setup.users s) = [1; 2; 3]
  /\ map (fun c => ac_category_id (Setup.cat_row c)) (Setup.categories s)
     = [1; 2; 3; 4; 5; 6; 7; 8; 9; 10; 11; 12]
  /\ length (Setup.homes s) = 1095%nat
  /\ length (Setup.activities s) = 3285%nat
  /\ (length (Setup.trips s) <= 1095)%nat
  /\ (forall h, In h (Setup.homes s) ->
        In (he_user_id h) (map Setup.user_id (Setup.users s)))
  /\ (forall t, In t (Setup.trips s) ->
        In (tr_user_id (Setup.trip_base t))
           (map Setup.user_id (Setup.users s)))
  /\ (forall a, In a (Setup.activities s) ->
        In (da_user_id (Setup.act_row a)) (map Setup.user_id (Setup.users s))
        /\ In (da_category_id (Setup.act_row a)) [1; 2; 3]
        /\ exists c,
             In c (Setup.categories s)
             /\ ac_category_id (Setup.cat_row c)
                = da_category_id (Setup.act_row a)
             /\ da_carbon_emissions (Setup.act_row a)
                = (da_quantity (Setup.act_row a)
                   * Setup.cat_carbon_factor c)%Qc).
Proof.
  intro s. subst s.
  assert (Husers : map Setup.user_id
                     (Setup.users (Setup.create_carbon_database r today))
                   = Setup.user_ids) by reflexivity.
  split; [reflexivity |]. split; [reflexivity |]. split.
  { rewrite seeded_homes, !length_app, !length_map, !length_seq.
    reflexivity. }
  split.
  { unfold Setup.create_carbon_database, Setup.over_days.
    cbn [Setup.activities].
    rewrite (length_flat_map_const _ (3 * 365)).
    - reflexivity.
    - intro u. rewrite (length_flat_map_const _ 3).
      + now rewrite length_seq.
      + intro day. now rewrite seeded_day_activities. }
  split.
  { unfold Setup.create_carbon_database, Setup.over_days.
    cbn [Setup.trips].
    apply (Nat.le_trans _ (365 * length Setup.user_ids)); [| cbn; lia].
    apply length_flat_map_le. intro u.
    apply (Nat.le_trans _ (1 * length (seq 0 365)));
      [| rewrite length_seq; lia].
    apply length_flat_map_le. intro day.
    destruct (Setup.takes_transport r u day); simpl; lia. }
  split.
  { intros h Hh. rewrite Husers. rewrite seeded_homes in Hh.
    rewrite !in_app_iff, !in_map_iff in Hh. unfold Setup.user_ids.
    destruct Hh as [[d [<- _]] | [[d [<- _]] | [d [<- _]]]]; cbn; tauto. }
  split.
  { intros t Ht. rewrite Husers.
    destruct (seeded_trips_In r today t Ht) as [u [day [Hu [_ [_ ->]]]]].
    exact Hu. }
  intros a Ha. rewrite Husers.
  destruct (seeded_activities_In r today a Ha)
    as [u [day [c [f [Hu [_ [Hc ->]]]]]]].
  cbn [Setup.act_row Setup.seeded_activity da_user_id da_category_id
       da_quantity da_carbon_emissions].
  split; [exact Hu |].
  destruct Hc as [[= <- <-] | [[= <- <-] | [[= <- <-] | []]]].
  - split; [cbn; tauto |].
    eexists.
    split; [left; reflexivity | split; reflexivity].
  - split; [cbn; tauto |].
    eexists.
    split; [right; left; reflexivity | split; reflexivity].
  - split; [cbn; tauto |].
    eexists.
    split; [right; right; left; reflexivity | split; reflexivity].
Qed.

(* ================================================================== *)
(** * Excel export: the fetched frame *)

Lemma length_flat_map_sum {A B : Type} (f : A -> list B) (l : list A) :
  length (flat_map f l) = list_sum (map (fun a => length (f a)) l).
Proof.
  induction l as [| a l IH]; simpl; [reflexivity |].
  now rewrite length_app, IH.
Qed.

Lemma left_join_In {A B : Type} (on : A -> B -> bool) (l : list A)
    (r : list B) (a : A) (ob : option B) :
  In (a, ob) (Excel.left_join on l r)
  <-> In a l
      /\ ((ob = None /\ filter (on a) r = [])
          \/ exists b, ob = Some b /\ In b (filter (on a) r)).
Proof.
  unfold Excel.left_join. rewrite in_flat_map. split.
  - intros [a' [Ha' H]]. destruct (filter (on a') r) as [| b ms] eqn:E.
    + destruct H as [[= <- <-] | []]. split; [exact Ha' |]. now left.
    + apply in_map_iff in H. destruct H as [b' [[= <- <-] Hb']].
      split; [exact Ha' |]. right. exists b'. rewrite E. now split.
  - intros [Ha [[-> E] | [b [-> Hb]]]]; exists a; split; try exact Ha.
    + rewrite E. now left.
    + destruct (filter (on a) r) as [| b' ms]; [destruct Hb |].
      apply in_map_iff. exists b. now split.
Qed.

Lemma left_join_rows {A B : Type} (on : A -> B -> bool) (a : A)
    (r : list B) :
  length (match filter (on a) r with
          | [] => [(a, @None B)]
          | ms => map (fun b => (a, Some b)) ms
          end)
  = Nat.max 1 (length (filter (on a) r)).
Proof.
  destruct (filter (on a) r) as [| b ms]; [reflexivity |].
  rewrite length_map. cbn [length]. lia.
Qed.

Lemma length_flat_map_const_In {A B : Type} (f : A -> list B) (k : nat)
    (l : list A) :
  (forall x, In x l -> length (f x) = k) ->
  length (flat_map f l) = (k * length l)%nat.
Proof.
  induction l as [| x l IH]; intro H; simpl; [lia |].
  rewrite length_app, (H x (or_introl eq_refl)), IH; [lia |].
  intros y Hy. apply H. now right.
Qed.

Lemma joined_length (s : Setup.store) :
  length (Excel.joined s)
  = list_sum (map (fun h => (Nat.max 1 (length (Excel.users_of s h))
                             * Nat.max 1 (length (Excel.trips_on s h)))%nat)
                  (Setup.homes s)).
Proof.
  unfold Excel.joined. unfold Excel.left_join at 1.
  unfold Excel.left_join. rewrite flat_map_flat_map, length_flat_map_sum.
  f_equal. apply map_ext. intro h.
  rewrite (length_flat_map_const_In _
             (Nat.max 1 (length (Excel.trips_on s h)))).
  - rewrite (left_join_rows Excel.on_user h (Setup.users s)).
    unfold Excel.users_of. lia.
  - intros [h' ou] Hin.
    assert (Hh : h' = h).
    { destruct (filter (Excel.on_user h) (Setup.users s)).
      - destruct Hin as [[= <- _] | []]. reflexivity.
      - apply in_map_iff in Hin. destruct Hin as [b [[= <- _] _]].
        reflexivity. }
    subst h'. cbn [fst].
    apply (left_join_rows (fun hu t => Excel.on_trip (fst hu) t) (h, ou)).
Qed.

Lemma joined_In (s : Setup.store) (h : home_energy_row)
    (ou : option Setup.user_row) (ot : option Setup.trip_row) :
  In (h, ou, ot) (Excel.joined s)
  <-> In h (Setup.homes s)
      /\ ((ou = None /\ Excel.users_of s h = [])
          \/ exists u, ou = Some u /\ In u (Excel.users_of s h))
      /\ ((ot = None /\ Excel.trips_on s h = [])
          \/ exists t, ot = Some t /\ In t (Excel.trips_on s h)).
Proof.
  unfold Excel.joined. rewrite left_join_In, left_join_In.
  unfold Excel.users_of, Excel.trips_on. cbn [fst]. tauto.
Qed.

Lemma desc_by_total {A : Type} (key : A -> Z) (a b : A) :
  Excel.desc_by key a b = false -> Excel.desc_by key b a = true.
Proof. unfold Excel.desc_by. lia. Qed.

Lemma desc_by_trans {A : Type} (key : A -> Z) (a b c : A) :
  Excel.desc_by key a b = true -> Excel.desc_by key b c = true ->
  Excel.desc_by key a c = true.
Proof. unfold Excel.desc_by. lia. Qed.

Lemma list_sum_ge {A : Type} (f : A -> nat) (l : list A) :
  (forall a, (1 <= f a)%nat) -> (length l <= list_sum (map f l))%nat.
Proof.
  intro H. induction l as [| a l IH]; simpl; [lia |].
  pose proof (H a). lia.
Qed.

(** X19. The sheet [Carbon_Data].  Each home-energy row is listed once
    for every trip of its user on its day (and once for every row of
    [users] with its user id), or once if there is none: a day with
    several trips repeats its home-energy values.  Rows come by
    descending date; every row shows the values of a home-energy row,
    with [Total_CO2 = Home_CO2 + Transport_CO2]; its transport columns
    are those of one same-day trip of the user, or "None", 0 and 0 when
    the user has no trip that day; and its user name is that of a stored
    user with the row's user id, or missing when there is none. *)
Theorem carbon_data_rows (s : Setup.store) :
  let df := Excel.carbon_data s in
  length df
  = list_sum (map (fun h => (Nat.max 1 (length (Excel.users_of s h))
                             * Nat.max 1 (length (Excel.trips_on s h)))%nat)
                  (Setup.homes s))
  /\ (length (Setup.homes s) <= length df)%nat
  /\ StronglySorted (fun a b => Excel.Date b <= Excel.Date a) df
  /\ (forall row, In row df ->
        Excel.Total_CO2 row
        = (Excel.Home_CO2 row + Excel.Transport_CO2 row)%Qc
        /\ exists h,
             In h (Setup.homes s)
             /\ Excel.Date row = he_consumption_date h
             /\ Excel.User_ID row = he_user_id h
             /\ Excel.Home_CO2 row = he_carbon_emissions h
             /\ Excel.Electricity_kWh row = he_electricity_usage h
             /\ ((Excel.User_Name row = None /\ Excel.users_of s h = [])
                 \/ exists u, In u (Setup.users s)
                              /\ Setup.user_id u = he_user_id h
                              /\ Excel.User_Name row
                                 = Some (Setup.user_name u))
             /\ ((Excel.trips_on s h = []
                  /\ Excel.Transport_Mode row = "None"%string
                  /\ Excel.Distance_km row = 0%Qc
                  /\ Excel.Transport_CO2 row = 0%Qc)
                 \/ exists t,
                      In t (Excel.trips_on s h)
                      /\ Excel.Transport_Mode row
                         = Setup.trip_transport_mode t
                      /\ Excel.Distance_km row = Setup.trip_distance t
                      /\ Excel.Transport_CO2 row
                         = tr_carbon_emissions (Setup.trip_base t)))
  /\ (forall h, In h (Setup.homes s) ->
        exists row, In row df
                    /\ Excel.Date row = he_consumption_date h
                    /\ Excel.User_ID row = he_user_id h
                    /\ Excel.Home_CO2 row = he_carbon_emissions h).
Proof.
  intro df. subst df. unfold Excel.carbon_data.
  assert (Hlen : length
                   (map Excel.row_of
                      (order_by
                         (Excel.desc_by
                            (fun j => he_consumption_date (fst (fst j))))
                         (Excel.joined s)))
                 = list_sum
                     (map (fun h =>
                             (Nat.max 1 (length (Excel.users_of s h))
                              * Nat.max 1 (length (Excel.trips_on s h)))%nat)
                          (Setup.homes s))).
  { rewrite length_map, order_by_length. apply joined_length. }
  split; [exact Hlen |]. split.
  { rewrite Hlen. apply list_sum_ge. intro h. nia. }
  split.
  { apply StronglySorted_map.
    apply (StronglySorted_weaken
             (fun a b =>
                Excel.desc_by (fun j => he_consumption_date (fst (fst j)))
                              a b = true)).
    - intros a b. unfold Excel.desc_by. cbn [Excel.row_of Excel.Date]. lia.
    - apply order_by_StronglySorted;
        [apply desc_by_total | apply desc_by_trans]. }
  split.
  - intros row Hrow. apply in_map_iff in Hrow.
    destruct Hrow as [[[h ou] ot] [<- Hj]].
    apply order_by_In in Hj. apply joined_In in Hj.
    destruct Hj as [Hh [Hu Ht]]. split; [reflexivity |].
    exists h. cbn [Excel.row_of Excel.Date Excel.User_ID Excel.Home_CO2
                   Excel.Electricity_kWh Excel.User_Name
                   Excel.Transport_Mode Excel.Distance_km
                   Excel.Transport_CO2 fst snd].
    repeat (split; [first [exact Hh | reflexivity] |]). split.
    + destruct Hu as [[-> Hnone] | [u [-> Hin]]]; [left; now split | right].
      unfold Excel.users_of in Hin. apply filter_In in Hin.
      destruct Hin as [Hin Hon]. unfold Excel.on_user in Hon.
      apply Z.eqb_eq in Hon. exists u. repeat split; auto.
    + destruct Ht as [[-> Hnone] | [t [-> Hin]]]; [left | right].
      * repeat split; auto.
      * exists t. repeat split; auto.
  - intros h Hh.
    assert (Hex : exists ou ot, In (h, ou, ot) (Excel.joined s)).
    { assert (Hu : exists ou,
                 (ou = None /\ Excel.users_of s h = [])
                 \/ exists u, ou = Some u /\ In u (Excel.users_of s h)).
      { destruct (Excel.users_of s h) as [| u us].
        - exists None. now left.
        - exists (Some u). right. exists u. split; [reflexivity | now left]. }
      assert (Ht : exists ot,
                 (ot = None /\ Excel.trips_on s h = [])
                 \/ exists t, ot = Some t /\ In t (Excel.trips_on s h)).
      { destruct (Excel.trips_on s h) as [| t ts].
        - exists None. now left.
        - exists (Some t). right. exists t. split; [reflexivity | now left]. }
      destruct Hu as [ou Hu], Ht as [ot Ht]. exists ou, ot.
      apply joined_In. auto. }
    destruct Hex as [ou [ot Hj]].
    exists (Excel.row_of (h, ou, ot)). split; [| repeat split].
    apply in_map. now apply order_by_In.
Qed.

(** A home-energy row of a day with two trips is listed twice. *)
Lemma carbon_data_rows_witness :
  length (Excel.carbon_data Excel.two_trip_store) = 2%nat
  /\ map Excel.Home_CO2 (Excel.carbon_data Excel.two_trip_store)
     = [Qc_of_Z 10; Qc_of_Z 10].
Proof.
  split.
  - rewrite (proj1 (carbon_data_rows Excel.two_trip_store)). reflexivity.
  - reflexivity.
Defined.

(** ** The export and the Pattern Analyzer *)

Lemma filter_Permutation {A : Type} (p : A -> bool) (l1 l2 : list A) :
  Permutation l1 l2 -> Permutation (filter p l1) (filter p l2).
Proof.
  induction 1 as [| x l1 l2 _ IH | x y l | l1 l2 l3 _ IH1 _ IH2]; simpl.
  - constructor.
  - destruct (p x); [now constructor | exact IH].
  - destruct (p x), (p y); try reflexivity. apply perm_swap.
  - now transitivity (filter p l2).
Qed.

Lemma flat_map_ext_In {A B : Type} (f g : A -> list B) (l : list A) :
  (forall a, In a l -> f a = g a) -> flat_map f l = flat_map g l.
Proof.
  induction l as [| a l IH]; intro H; simpl; [reflexivity |].
  rewrite (H a (or_introl eq_refl)), IH; [reflexivity |].
  intros b Hb. apply H. now right.
Qed.

Lemma filter_unique_key {A : Type} (key : A -> Z) (k : Z) (l : list A) :
  NoDup (map key l) ->
  (length (filter (fun x => (k =? key x)%Z) l) <= 1)%nat.
Proof.
  induction l as [| x l IH]; simpl; intro Hnd; [lia |].
  inversion Hnd as [| ? ? Hnin Hnd']; subst.
  destruct (Z.eqb_spec k (key x)) as [-> | Hne]; [| now apply IH].
  rewrite filter_none; [simpl; lia |].
  intros y Hy. destruct (Z.eqb_spec (key x) (key y)) as [E |]; [| reflexivity].
  exfalso. apply Hnin. rewrite E. now apply in_map.
Qed.

Lemma left_join_single {A B : Type} (on : A -> B -> bool) (a : A)
    (r : list B) :
  (length (filter (on a) r) <= 1)%nat ->
  match filter (on a) r with
  | [] => [(a, None)]
  | ms => map (fun b => (a, Some b)) ms
  end = [(a, hd_error (filter (on a) r))].
Proof.
  destruct (filter (on a) r) as [| b [| b' ms]]; simpl; intro H;
    [reflexivity | reflexivity | lia].
Qed.

(** With at most one matching user and trip per home-energy row, the join
    lists every home-energy row once. *)
Lemma joined_single (s : Setup.store) :
  NoDup (map Setup.user_id (Setup.users s)) ->
  (forall h, In h (Setup.homes s) ->
             (length (Excel.trips_on s h) <= 1)%nat) ->
  Excel.joined s
  = map (fun h => (h, hd_error (Excel.users_of s h),
                   hd_error (Excel.trips_on s h)))
        (Setup.homes s).
Proof.
  intros Hkey Hone. unfold Excel.joined. unfold Excel.left_join at 1.
  unfold Excel.left_join. rewrite flat_map_flat_map.
  rewrite <- flat_map_singleton. apply flat_map_ext_In. intros h Hh.
  rewrite (left_join_single Excel.on_user h (Setup.users s))
    by (apply (filter_unique_key Setup.user_id); exact Hkey).
  cbn [flat_map]. rewrite app_nil_r.
  apply (left_join_single (fun hu t => Excel.on_trip (fst hu) t)
           (h, hd_error (filter (Excel.on_user h) (Setup.users s)))).
  exact (Hone h Hh).
Qed.

Lemma same_day_transport_trips_on (s : Setup.store) (h : home_energy_row) :
  same_day_transport (Setup.analytics_view s)
    (he_user_id h) (he_consumption_date h)
  = map Setup.trip_base (Excel.trips_on s h).
Proof.
  unfold same_day_transport, Excel.trips_on, Setup.analytics_view.
  cbn [transportation]. rewrite filter_map_swap. f_equal.
  apply filter_ext. intro t. unfold Excel.on_trip.
  rewrite andb_comm, (Z.eqb_sym (tr_user_id (Setup.trip_base t))).
  now rewrite (Z.eqb_sym (tr_activity_date (Setup.trip_base t))).
Qed.

Lemma list_sum_ones {A : Type} (f : A -> nat) (l : list A) :
  (forall a, In a l -> f a = 1%nat) -> list_sum (map f l) = length l.
Proof.
  induction l as [| a l IH]; intro H; simpl; [reflexivity |].
  rewrite (H a (or_introl eq_refl)), IH; [reflexivity |].
  intros b Hb. apply H. now right.
Qed.

(** X20. The export against the Pattern Analyzer.  When user ids are
    unique in [users] and no user has two trips on the day of one of
    their home-energy rows, the sheet [Carbon_Data] has exactly one row
    per home-energy row, and for every user the dates and totals of the
    user's rows in the sheet are those of the user's pattern frame (up to
    order), so both add up to the same total. *)
Theorem carbon_data_matches_patterns (s : Setup.store) (u : Z) :
  NoDup (map Setup.user_id (Setup.users s)) ->
  (forall h, In h (Setup.homes s) ->
             (length (Excel.trips_on s h) <= 1)%nat) ->
  let df := Excel.carbon_data s in
  let patterns := analyze_carbon_patterns (Setup.analytics_view s) u in
  length df = length (Setup.homes s)
  /\ Permutation
       (map (fun row => (Excel.Date row, Excel.Total_CO2 row))
            (filter (fun row => Excel.User_ID row =? u) df))
       (map (fun p => (consumption_date p, total_emissions p)) patterns)
  /\ sum (map Excel.Total_CO2 (filter (fun row => Excel.User_ID row =? u) df))
     = sum (map total_emissions patterns).
Proof.
  intros Hkey Hone df patterns. subst df patterns.
  assert (Hperm :
            Permutation
              (map (fun row => (Excel.Date row, Excel.Total_CO2 row))
                   (filter (fun row => Excel.User_ID row =? u)
                           (Excel.carbon_data s)))
              (map (fun p => (consumption_date p, total_emissions p))
                   (analyze_carbon_patterns (Setup.analytics_view s) u))).
  { set (G := fun h : home_energy_row =>
                (he_consumption_date h,
                 (he_carbon_emissions h
                  + sum (map tr_carbon_emissions
                           (map Setup.trip_base (Excel.trips_on s h))))%Qc)).
    transitivity (map G (home_rows_of (Setup.analytics_view s) u)).
    - unfold Excel.carbon_data.
      rewrite (Permutation_map _
                 (filter_Permutation _ _ _
                    (Permutation_map Excel.row_of
                       (order_by_Permutation _ (Excel.joined s))))).
      rewrite (joined_single s Hkey Hone), map_map, filter_map_swap, map_map.
      unfold home_rows_of, Setup.analytics_view. cbn [home_energy].
      cbn [Excel.row_of Excel.User_ID Excel.Date Excel.Total_CO2 fst snd].
      apply Permutation_refl'. apply map_ext_in. intros h Hh.
      apply filter_In in Hh. destruct Hh as [Hh _].
      unfold G. f_equal. f_equal.
      pose proof (Hone h Hh) as Hlen.
      destruct (Excel.trips_on s h) as [| t [| t' ts]];
        [reflexivity | | simpl in Hlen; lia].
      cbn [hd_error map sum fold_right]. now rewrite Qcplus_0_r.
    - unfold analyze_carbon_patterns. cbv zeta.
      rewrite left_join_transport_rows.
      fold (home_rows_of (Setup.analytics_view s) u).
      rewrite (Permutation_map _
                 (Permutation_map pattern_of_fetched
                    (order_by_Permutation _ _))).
      rewrite !map_map. apply Permutation_refl'. apply map_ext. intro h.
      unfold G. cbn [pattern_of_fetched consumption_date total_emissions
                     fst snd].
      now rewrite coalesce0_day_transport, same_day_transport_trips_on. }
  split.
  { unfold Excel.carbon_data.
    rewrite length_map, order_by_length, joined_length.
    apply list_sum_ones. intros h Hh.
    pose proof (Hone h Hh).
    pose proof (filter_unique_key Setup.user_id (he_user_id h)
                  (Setup.users s) Hkey) as Hu.
    unfold Excel.users_of, Excel.on_user. lia. }
  split; [exact Hperm |].
  transitivity (sum (map snd
                       (map (fun row => (Excel.Date row, Excel.Total_CO2 row))
                            (filter (fun row => Excel.User_ID row =? u)
                                    (Excel.carbon_data s))))).
  { now rewrite map_map. }
  rewrite (sum_Permutation _ _ (Permutation_map snd Hperm)).
  now rewrite map_map.
Qed.

Lemma seeded_homes_In (r : Setup.seed_draws) (today : date)
    (h : home_energy_row) :
  In h (Setup.homes (Setup.create_carbon_database r today)) ->
  exists u day,
    In u Setup.user_ids /\ (day < 365)%nat
    /\ h = Setup.home_of r today u day.
Proof.
  rewrite seeded_homes, !in_app_iff, !in_map_iff. unfold Setup.user_ids.
  intros [[d [<- Hd]] | [[d [<- Hd]] | [d [<- Hd]]]];
    apply in_seq in Hd; eexists; exists d;
    (split; [| split; [lia | reflexivity]]); cbn; tauto.
Qed.

Lemma seeded_users_unique (r : Setup.seed_draws) (today : date) :
  NoDup (map Setup.user_id
             (Setup.users (Setup.create_carbon_database r today))).
Proof.
  change (NoDup [1; 2; 3]).
  repeat constructor; cbn [In]; intuition discriminate.
Qed.

Lemma seeded_one_trip (r : Setup.seed_draws) (today : date)
    (h : home_energy_row) :
  In h (Setup.homes (Setup.create_carbon_database r today)) ->
  (length (Excel.trips_on (Setup.create_carbon_database r today) h) <= 1)%nat.
Proof.
  intro Hh. destruct (seeded_homes_In r today h Hh) as [u [day [Hu [Hday ->]]]].
  rewrite <- (length_map Setup.trip_base), <- same_day_transport_trips_on.
  change (he_user_id (Setup.home_of r today u day)) with u.
  change (he_consumption_date (Setup.home_of r today u day))
    with (Setup.current_date today day).
  rewrite seeded_same_day_transport by assumption.
  destruct (Setup.takes_transport r u day); simpl; lia.
Qed.

Lemma carbon_data_matches_patterns_witness :
  length (Excel.carbon_data
            (Setup.create_carbon_database Setup.low_draws 1000))
  = length (Setup.homes (Setup.create_carbon_database Setup.low_draws 1000)).
Proof.
  exact (proj1 (carbon_data_matches_patterns
                  (Setup.create_carbon_database Setup.low_draws 1000) 1
                  (seeded_users_unique Setup.low_draws 1000)
                  (seeded_one_trip Setup.low_draws 1000))).
Defined.

(** ** The sheet [Monthly_Trends] *)

(** Every home-energy row is listed in the frame. *)
Lemma carbon_data_cover (s : Setup.store) (h : home_energy_row) :
  In h (Setup.homes s) ->
  exists row, In row (Excel.carbon_data s)
              /\ Excel.Date row = he_consumption_date h
              /\ Excel.User_ID row = he_user_id h
              /\ Excel.Home_CO2 row = he_carbon_emissions h.
Proof.
  intro Hh.
  assert (Hu : exists ou,
             (ou = None /\ Excel.users_of s h = [])
             \/ exists u, ou = Some u /\ In u (Excel.users_of s h)).
  { destruct (Excel.users_of s h) as [| u us].
    - exists None. now left.
    - exists (Some u). right. exists u. split; [reflexivity | now left]. }
  assert (Ht : exists ot,
             (ot = None /\ Excel.trips_on s h = [])
             \/ exists t, ot = Some t /\ In t (Excel.trips_on s h)).
  { destruct (Excel.trips_on s h) as [| t ts].
    - exists None. now left.
    - exists (Some t). right. exists t. split; [reflexivity | now left]. }
  destruct Hu as [ou Hu], Ht as [ot Ht].
  exists (Excel.row_of (h, ou, ot)). split; [| repeat split].
  unfold Excel.carbon_data. apply in_map. apply order_by_In.
  apply joined_In. auto.
Qed.

(** X21. The sheet [Monthly_Trends] of a non-empty export.  It has one
    row per calendar month in which the frame has a row, by strictly
    ascending month; the value of a month is the sum of [Total_CO2] over
    the frame's rows of that month; and the monthly values add up to the
    sum of [Total_CO2] over the whole frame, so that a home-energy row
    listed twice in the frame is also counted twice here. *)
Theorem monthly_trends_conserve (s : Setup.store) :
  Setup.homes s <> [] ->
  let df := fst (Excel.export_data_to_excel s) in
  let mt := snd (Excel.export_data_to_excel s) in
  df = Excel.carbon_data s
  /\ mt <> []
  /\ StronglySorted (fun a b => fst a < fst b) mt
  /\ sum (map snd mt) = sum (map Excel.Total_CO2 df)
  /\ (forall m, In m mt ->
        snd m = sum (map Excel.Total_CO2
                       (filter (fun row => Excel.period_M (Excel.Date row)
                                           =? fst m) df))
        /\ exists row, In row df
                       /\ Excel.period_M (Excel.Date row) = fst m)
  /\ (forall row, In row df ->
        exists m, In m mt /\ fst m = Excel.period_M (Excel.Date row)).
Proof.
  intros Hne df mt. subst df mt. unfold Excel.export_data_to_excel.
  cbn [fst snd]. set (df := Excel.carbon_data s).
  unfold Excel.monthly_trends.
  set (mk := fun g : Z * list Excel.export_row =>
               (fst g, sum (map Excel.Total_CO2 (snd g)))).
  set (groups := group_by Z.eqb (fun row => Excel.period_M (Excel.Date row))
                          df).
  assert (Hperm := order_by_Permutation (asc_by fst) (map mk groups)).
  assert (Hkeys : map fst (map mk groups)
                  = distinct Z.eqb
                      (map (fun row => Excel.period_M (Excel.Date row)) df)).
  { rewrite map_map. simpl. apply (group_by_keys Z.eqb). }
  assert (Hall : forall row, In row df ->
                   exists m, In m (order_by (asc_by fst) (map mk groups))
                             /\ fst m = Excel.period_M (Excel.Date row)).
  { intros row Hrow.
    assert (Hk : In (Excel.period_M (Excel.Date row))
                    (map fst (map mk groups))).
    { rewrite Hkeys. apply In_distinct; [exact Z.eqb_eq |].
      apply (in_map (fun row => Excel.period_M (Excel.Date row))).
      exact Hrow. }
    apply in_map_iff in Hk. destruct Hk as [m [Hm Hin]].
    exists m. split; [| exact Hm]. now apply order_by_In. }
  split; [reflexivity |]. split.
  { destruct (Setup.homes s) as [| h hs] eqn:E; [congruence |].
    destruct (carbon_data_cover s h) as [row [Hrow _]];
      [rewrite E; now left |].
    destruct (Hall row Hrow) as [m [Hm _]].
    intro Hnil. rewrite Hnil in Hm. destruct Hm. }
  split.
  { apply StronglySorted_strict.
    - apply order_by_date_sorted.
    - apply (Permutation_NoDup
               (Permutation_map fst (Permutation_sym Hperm))).
      rewrite Hkeys. apply NoDup_distinct. exact Z.eqb_eq. }
  split.
  { rewrite (sum_Permutation _ _ (Permutation_map snd Hperm)).
    rewrite map_map. simpl.
    apply (sum_group_by Z.eqb Z.eqb_eq
             (fun row => Excel.period_M (Excel.Date row))). }
  split; [| exact Hall].
  intros m Hm. apply order_by_In in Hm. apply in_map_iff in Hm.
  destruct Hm as [[k rows] [<- Hg]].
  apply (group_by_In Z.eqb Z.eqb_eq) in Hg. cbn [fst snd] in *.
  destruct Hg as [-> Hex]. split; [reflexivity | exact Hex].
Qed.

Lemma two_trip_store_has_rows : Setup.homes Excel.two_trip_store <> [].
Proof. discriminate. Qed.

Lemma monthly_trends_conserve_witness :
  sum (map snd (snd (Excel.export_data_to_excel Excel.two_trip_store)))
  = sum (map Excel.Total_CO2
           (fst (Excel.export_data_to_excel Excel.two_trip_store))).
Proof.
  exact (proj1 (proj2 (proj2 (proj2
           (monthly_trends_conserve Excel.two_trip_store
              two_trip_store_has_rows))))).
Defined.
